(** * Lecture Voice-to-Notes Generator: a shallow embedding of [app.py]

    The development follows the helper functions of [app.py]:
    [extract_video_id], [transcribe_audio], [generate_ai_notes] and the
    YouTube caption flow of the second tab.  File names, URLs and
    messages are modelled as [string] (8-bit characters, read as ASCII
    text); where the result depends on characters outside ASCII (the
    words, lengths and case of a transcript in [generate_ai_notes]) a
    string is the list of its code points, in the modules [Text] and
    [NotesU]; the third-party libraries the program calls (pydub, moviepy,
    speech_recognition, youtube_transcript_api, the summarization
    pipeline) appear as parameters or as oracle records whose answers
    the program reacts to. *)

From Stdlib Require Import String Ascii List NArith Arith Bool Lia.
From Stdlib Require Import DecimalString Permutation Sorted.
Import ListNotations.

Local Open Scope list_scope.
Local Open Scope string_scope.

(* ===================================================================== *)
(** ** Python string primitives used by the program *)
(* ===================================================================== *)

Module PyStr.

  (** [str.isspace] on one ASCII character: TAB..CR, FS..US and SPACE. *)
Definition is_space (c : ascii) : bool :=
    let n := N_of_ascii c in
    (((9 <=? n) && (n <=? 13)) || ((28 <=? n) && (n <=? 32)))%N.

Definition is_upper (c : ascii) : bool :=
    let n := N_of_ascii c in ((65 <=? n) && (n <=? 90))%N.

Definition is_lower (c : ascii) : bool :=
    let n := N_of_ascii c in ((97 <=? n) && (n <=? 122))%N.

Definition is_digit (c : ascii) : bool :=
    let n := N_of_ascii c in ((48 <=? n) && (n <=? 57))%N.

Definition lower_char (c : ascii) : ascii :=
    if is_upper c then ascii_of_N (N_of_ascii c + 32) else c.

Definition upper_char (c : ascii) : ascii :=
    if is_lower c then ascii_of_N (N_of_ascii c - 32) else c.

  (** [s.lower()] *)
Fixpoint lower (s : string) : string :=
    match s with
    | EmptyString => EmptyString
    | String c r => String (lower_char c) (lower r)
    end.

  (** [s.upper()] *)
Fixpoint upper (s : string) : string :=
    match s with
    | EmptyString => EmptyString
    | String c r => String (upper_char c) (upper r)
    end.

  (** [s.capitalize()]: first character upper-cased, the rest lower-cased. *)
Definition capitalize (s : string) : string :=
    match s with
    | EmptyString => EmptyString
    | String c r => String (upper_char c) (lower r)
    end.

Definition is_empty (s : string) : bool :=
    match s with EmptyString => true | _ => false end.

  (** [s.split()] with no argument: the maximal runs of non-whitespace
      characters, in order.  [cur] is the word being read. *)
Fixpoint split_ws_aux (cur : string) (s : string) : list string :=
    match s with
    | EmptyString => if is_empty cur then [] else [cur]
    | String c r =>
        if is_space c
        then (if is_empty cur then split_ws_aux EmptyString r
              else cur :: split_ws_aux EmptyString r)
        else split_ws_aux (cur ++ String c EmptyString) r
    end.

Definition split_ws (s : string) : list string := split_ws_aux EmptyString s.

  (** [s.split(sep)] for a non-empty separator: the fragments between
      the non-overlapping occurrences of [sep], scanned left to right;
      empty fragments are kept.  After an occurrence is found at the
      current character, [skip] counts its remaining characters. *)
Fixpoint split_aux (sep : string) (skip : nat) (cur : string) (s : string)
    : list string :=
    match s with
    | EmptyString => [cur]
    | String c r =>
        match skip with
        | S k => split_aux sep k cur r
        | O =>
            if prefix sep s
            then cur :: split_aux sep (String.length sep - 1) EmptyString r
            else split_aux sep 0 (cur ++ String c EmptyString) r
        end
    end.

Definition split (sep : string) (s : string) : list string :=
    split_aux sep 0 EmptyString s.

  (** [sep.join(l)] *)
Definition join (sep : string) (l : list string) : string :=
    String.concat sep l.

  (** [s.replace(old, new)] for a non-empty [old]. *)
Definition replace (old new : string) (s : string) : string :=
    join new (split old s).

Fixpoint drop_space (l : list ascii) : list ascii :=
    match l with
    | [] => []
    | c :: r => if is_space c then drop_space r else l
    end.

  (** [s.strip()] *)
Definition strip (s : string) : string :=
    string_of_list_ascii
      (rev (drop_space (rev (drop_space (list_ascii_of_string s))))).

  (** [str(n)] for a non-negative integer. *)
Definition of_N (n : N) : string := NilEmpty.string_of_uint (N.to_uint n).

  (** [l[-1]] of a non-empty list (a [split] result is never empty). *)
Definition last_item (l : list string) : string := List.last l EmptyString.

  (** [x in l] for a list of strings. *)
Definition mem (x : string) (l : list string) : bool :=
    existsb (String.eqb x) l.

Fixpoint all_chars (p : ascii -> bool) (s : string) : bool :=
    match s with
    | EmptyString => true
    | String c r => p c && all_chars p r
    end.

  (** A word: not empty, no whitespace in it. *)
Definition is_word (w : string) : Prop :=
    is_empty w = false /\ all_chars (fun c => negb (is_space c)) w = true.

  (** [s[:n]] *)
Fixpoint take (n : nat) (s : string) : string :=
    match n, s with
    | O, _ => EmptyString
    | S k, EmptyString => EmptyString
    | S k, String c r => String c (take k r)
    end.

  (** [s[n:]] *)
Fixpoint drop (n : nat) (s : string) : string :=
    match n, s with
    | O, _ => s
    | S k, EmptyString => EmptyString
    | S k, String _ r => drop k r
    end.

End PyStr.

(* ===================================================================== *)
(** ** [extract_video_id] (app.py, lines 26-30) *)
(* ===================================================================== *)

Module VideoId.

  (** The character class [[0-9A-Za-z_-]]. *)
Definition is_id_char (c : ascii) : bool :=
    PyStr.is_digit c || PyStr.is_upper c || PyStr.is_lower c
    || Ascii.eqb c "_"%char || Ascii.eqb c "-"%char.

  (** [([0-9A-Za-z_-]{n})] anchored at the head of [s]: the captured
      group when the first [n] characters are all in the class. *)
Fixpoint take_id (n : nat) (s : string) : option string :=
    match n with
    | O => Some EmptyString
    | S k =>
        match s with
        | EmptyString => None
        | String c r =>
            if is_id_char c then option_map (String c) (take_id k r) else None
        end
    end.

  (** The whole pattern [(?:v=|\/)([0-9A-Za-z_-]{11})] anchored at the
      head of [s]: the alternatives are tried in order, [v=] first. *)
Definition match_at (s : string) : option string :=
    match s with
    | String "v" (String "=" r) => take_id 11 r
    | String "/" r => take_id 11 r
    | _ => None
    end.

  (** [re.search(pattern, url)]: the start positions are tried from
      left to right; the result is group 1 of the first match. *)
Fixpoint re_search (s : string) : option string :=
    match match_at s with
    | Some g => Some g
    | None =>
        match s with
        | EmptyString => None
        | String _ r => re_search r
        end
    end.

  (** [match.group(1) if match else None] *)
Definition extract_video_id (url : string) : option string := re_search url.

  (** An identifier: 11 characters of the class. *)
Definition is_video_id (g : string) : Prop :=
    String.length g = 11 /\ PyStr.all_chars is_id_char g = true.

  (** [url] has, right after [pre], a [v=] or a [/] followed by the
      identifier [g]. *)
Definition occurrence (url pre g : string) : Prop :=
    exists p post,
      (p = "v=" \/ p = "/") /\ url = pre ++ p ++ g ++ post /\ is_video_id g.

  (** Some start position before [n] carries a match. *)
Fixpoint matches_before (n : nat) (s : string) : bool :=
    match n with
    | O => false
    | S k =>
        match match_at s with
        | Some _ => true
        | None => match s with
                  | EmptyString => false
                  | String _ r => matches_before k r
                  end
        end
    end.

End VideoId.

(* ===================================================================== *)
(** ** Python exceptions, results and the temporary-file store *)
(* ===================================================================== *)

Module Py.

  (** The exception classes the program distinguishes in
      [transcribe_audio] and [generate_ai_notes]; every other class is
      [OtherException]. *)
Inductive exn_class : Type :=
  | RequestError        (* sr.RequestError *)
  | UnknownValueError   (* sr.UnknownValueError *)
  | IndexError
  | OSError
  | OtherException.

  (** An exception object: its class and [str(e)]. *)
Record exn : Type := mk_exn { exn_cls : exn_class; exn_str : string }.

  (** The outcome of a call that may raise. *)
Inductive result (A : Type) : Type :=
  | Ok (a : A)
  | Raise (e : exn).
Arguments Ok {A} a.
Arguments Raise {A} e.

  (** The files that exist, by path. *)
Definition fs : Type := list string.

Definition file_exists (p : string) (s : fs) : bool := PyStr.mem p s.

Definition create_file (p : string) (s : fs) : fs :=
    if file_exists p s then s else p :: s.

Definition remove_file (p : string) (s : fs) : fs :=
    filter (fun q => negb (String.eqb q p)) s.

  (** Computations over the file store that may raise. *)
Definition M (A : Type) : Type := fs -> result A * fs.

Definition ret {A : Type} (a : A) : M A := fun s => (Ok a, s).

Definition raise {A : Type} (e : exn) : M A := fun s => (Raise e, s).

Definition lift {A : Type} (r : result A) : M A := fun s => (r, s).

Definition bind {A B : Type} (m : M A) (k : A -> M B) : M B :=
    fun s =>
      match m s with
      | (Ok a, s') => k a s'
      | (Raise e, s') => (Raise e, s')
      end.

  (** [try: m  except Exception as e: h e] *)
Definition try_except {A : Type} (m : M A) (h : exn -> M A) : M A :=
    fun s =>
      match m s with
      | (Ok a, s') => (Ok a, s')
      | (Raise e, s') => h e s'
      end.

  (** [try: m  finally: f]; [f] runs on every exit of [m], a [return]
      included, and an exception of [f] replaces the outcome of [m]. *)
Definition try_finally {A : Type} (m : M A) (f : M unit) : M A :=
    fun s =>
      match m s with
      | (r, s') =>
          match f s' with
          | (Ok _, s'') => (r, s'')
          | (Raise e, s'') => (Raise e, s'')
          end
      end.

  (** [range(n)] *)
Definition range (n : N) : list N := map N.of_nat (seq 0 (N.to_nat n)).

End Py.

Declare Scope py_scope.
Delimit Scope py_scope with py.
Notation "x <- m ;; k" := (Py.bind m (fun x => k))
  (at level 61, m at next level, right associativity) : py_scope.

(* ===================================================================== *)
(** ** [transcribe_audio] (app.py, lines 32-139) *)
(* ===================================================================== *)

Module Transcribe.
Import Py.

  (** What the program uses of pydub's [AudioSegment]. *)
Record Pydub : Type := {
    AudioSegment : Type;
    (** [len(audio)], in milliseconds *)
    len : AudioSegment -> N;
    (** [audio[start:end]], offsets in milliseconds *)
    slice : AudioSegment -> N -> N -> AudioSegment;
    set_frame_rate : N -> AudioSegment -> AudioSegment;
    set_channels : N -> AudioSegment -> AudioSegment;
    frame_rate : AudioSegment -> N;
    channels : AudioSegment -> N
  }.

  (** The uploaded object: [audio_file.name] when it has one. *)
Record upload : Type := { up_name : option string }.

  (** The answers of the outside world during one call. *)
Record World (P : Pydub) : Type := {
    (** [tempfile.NamedTemporaryFile(delete=False, suffix=...)]: the
        path of the new file without its suffix. *)
    w_tempfile : result string;
    (** [tmp_file.write(audio_file.getbuffer())] *)
    w_write_upload : result unit;
    (** [VideoFileClip(temp_path)] and [video.audio]: [true] when the
        clip has an audio track. *)
    w_open_video : string -> result bool;
    (** [audio_clip.write_audiofile(wav_path)] *)
    w_write_audiofile : string -> result unit;
    (** [video.close()] *)
    w_close_video : result unit;
    (** [AudioSegment.from_file(path)] *)
    w_from_file : string -> result (AudioSegment P);
    w_from_mp3 : string -> result (AudioSegment P);
    w_from_wav : string -> result (AudioSegment P);
    w_from_ogg : string -> result (AudioSegment P);
    (** [AudioSegment.from_file(path, format=fmt)] *)
    w_from_file_format : string -> string -> result (AudioSegment P);
    (** [os.unlink(path)] on a file that exists *)
    w_unlink : string -> result unit;
    (** lines 109-116 for the [i]-th window: export to WAV, record,
        [recognize_google] *)
    w_recognize : N -> AudioSegment P -> result string
  }.
Arguments w_tempfile {P} _.
Arguments w_write_upload {P} _.
Arguments w_open_video {P} _ _.
Arguments w_write_audiofile {P} _ _.
Arguments w_close_video {P} _.
Arguments w_from_file {P} _ _.
Arguments w_from_mp3 {P} _ _.
Arguments w_from_wav {P} _ _.
Arguments w_from_ogg {P} _ _.
Arguments w_from_file_format {P} _ _ _.
Arguments w_unlink {P} _ _.
Arguments w_recognize {P} _ _ _.

Definition chunk_ms : N := 30000.
Definition max_chunks : N := 10.

  (** [(total_len + chunk_ms - 1) // chunk_ms] *)
Definition num_chunks (total_len : N) : N :=
    ((total_len + chunk_ms - 1) / chunk_ms)%N.

  (** [start] and [end] of window [i] (lines 105-106). *)
Definition window (total_len : N) (i : N) : N * N :=
    let start := (i * chunk_ms)%N in
    (start, N.min (start + chunk_ms) total_len).

  (** The windows of the loop of line 104, in order. *)
Definition windows (total_len : N) : list (N * N) :=
    map (window total_len) (range (N.min (num_chunks total_len) max_chunks)).

Definition unintelligible : string := "[Unintelligible]".

Definition request_failed (e : exn) : string :=
    "❌ recognition request failed: " ++ exn_str e.

  (** [" [Note: ... first {} seconds only]".format(max_chunks * (chunk_ms // 1000))] *)
Definition truncation_notice : string :=
    " [Note: Transcript truncated - first "
    ++ PyStr.of_N (max_chunks * (chunk_ms / 1000))
    ++ " seconds only]".

Definition video_exts : list string :=
    ["mp4"; "avi"; "mov"; "mkv"; "flv"; "wmv"; "webm"].

(** The text a window contributes to [texts], when it contributes
    one: the recognized part, or the marker of line 121. *)
Definition text_of (r : result string) : option string :=
    match r with
    | Ok part => Some part
    | Raise e =>
        match exn_cls e with
        | UnknownValueError => Some unintelligible
        | _ => None
        end
    end.

Section Run.
Context {P : Pydub} (w : World P).
Local Open Scope py_scope.

    (** The loop of lines 104-121 over the window indices [idx],
        starting from the texts gathered so far: [inl] is the string
        of the [return] of line 119, [inr] the final [texts]. *)
Fixpoint chunk_loop (audio : AudioSegment P) (total_len : N)
      (idx : list N) (texts : list string) : result (string + list string) :=
      match idx with
      | [] => Ok (inr texts)
      | i :: rest =>
          let '(start, stop) := window total_len i in
          let chunk := slice P audio start stop in
          match w_recognize w i chunk with
          | Ok part => chunk_loop audio total_len rest (texts ++ [part])%list
          | Raise e =>
              match exn_cls e with
              | RequestError => Ok (inl (request_failed e))
              | UnknownValueError =>
                  chunk_loop audio total_len rest (texts ++ [unintelligible])%list
              | _ => Raise e
              end
          end
      end.

    (** What lines 107-116 yield for window [i] of [audio]. *)
Definition window_result (audio : AudioSegment P) (i : N) : result string :=
      let '(start, stop) := window (len P audio) i in
      w_recognize w i (slice P audio start stop).

    (** Lines 98-126: chunk the normalized audio and transcribe it. *)
Definition transcribe_chunks (audio : AudioSegment P) : result string :=
      let total_len := len P audio in
      let n := num_chunks total_len in
      match chunk_loop audio total_len (range (N.min n max_chunks)) [] with
      | Raise e => Raise e
      | Ok (inl early) => Ok early
      | Ok (inr texts) =>
          let result := PyStr.join " " texts in
          Ok (if (max_chunks <? n)%N then result ++ truncation_notice else result)
      end.

    (** Line 96: [audio.set_frame_rate(16000).set_channels(1)] *)
Definition normalize (audio : AudioSegment P) : AudioSegment P :=
      set_channels P 1 (set_frame_rate P 16000 audio).

    (** [os.unlink(path)]: fails on a missing file, otherwise as the
        system answers; the file is gone only when the call succeeds. *)
Definition unlink (path : string) : M unit :=
      fun s =>
        if file_exists path s
        then match w_unlink w path with
             | Ok _ => (Ok tt, remove_file path s)
             | Raise e => (Raise e, s)
             end
        else (Raise (mk_exn OSError "No such file or directory"), s).

    (** [try: os.unlink(path)  except: pass] *)
Definition unlink_quietly (path : string) : M unit :=
      try_except (unlink path) (fun _ => ret tt).

    (** [audio_clip.write_audiofile(wav_path)]: the file exists once
        the call has succeeded. *)
Definition write_audiofile (wav_path : string) : M unit :=
      fun s =>
        match w_write_audiofile w wav_path with
        | Ok _ => (Ok tt, create_file wav_path s)
        | Raise e => (Raise e, s)
        end.

    (** Lines 55-72, the video branch: [inl] is a returned message. *)
Definition extract_from_video (file_ext temp_path : string)
      : M (string + AudioSegment P) :=
      try_except
        (has_audio <- lift (w_open_video w temp_path) ;;
         if negb has_audio
         then ret (inl "❌ No audio track found in video file")
         else
           let wav_path :=
             PyStr.replace ("." ++ file_ext) "_audio.wav" temp_path in
           _ <- write_audiofile wav_path ;;
           _ <- lift (w_close_video w) ;;
           audio <- lift (w_from_file w wav_path) ;;
           _ <- unlink_quietly wav_path ;;
           ret (inr audio))
        (fun e =>
           ret (inl ("❌ Cannot extract audio from " ++ PyStr.upper file_ext
                     ++ ": " ++ exn_str e))).

    (** Lines 76-90, the audio branch. *)
Definition load_audio_file (file_ext temp_path : string)
      : M (string + AudioSegment P) :=
      try_except
        (audio <- lift (w_from_file w temp_path) ;; ret (inr audio))
        (fun _ =>
           try_except
             (audio <- lift
                (if String.eqb file_ext "mp3" then w_from_mp3 w temp_path
                 else if String.eqb file_ext "wav" then w_from_wav w temp_path
                 else if String.eqb file_ext "ogg" then w_from_ogg w temp_path
                 else w_from_file_format w temp_path file_ext) ;;
              ret (inr audio))
             (fun e => ret (inl ("❌ Cannot load audio file: " ++ exn_str e)))).

    (** Lines 47-126, the body of the inner [try].  The test of line 92
        cannot succeed: each branch has either returned or bound
        [audio]. *)
Definition transcribe_body (file_ext temp_path : string) : M string :=
      loaded <- (if PyStr.mem (PyStr.lower file_ext) video_exts
                 then extract_from_video file_ext temp_path
                 else load_audio_file file_ext temp_path) ;;
      match loaded with
      | inl message => ret message
      | inr audio => lift (transcribe_chunks (normalize audio))
      end.

    (** Lines 43-45: the upload saved to a new temporary file that
        outlives the [with] block ([delete=False]). *)
Definition save_upload (file_ext : string) : M string :=
      stem <- lift (w_tempfile w) ;;
      let temp_path := stem ++ "." ++ file_ext in
      _ <- (fun s => (Ok tt, create_file temp_path s)) ;;
      _ <- lift (w_write_upload w) ;;
      ret temp_path.

    (** The handlers of lines 134-139. *)
Definition outer_handler (e : exn) : string :=
      match exn_cls e with
      | UnknownValueError =>
          "❌ Could not understand audio. Try clear speech with minimal background noise."
      | RequestError => "❌ Internet required. Error: " ++ exn_str e
      | _ => "❌ Error: " ++ exn_str e
      end.

    (** [transcribe_audio(audio_file)]: the returned string and the
        files left behind. *)
Definition transcribe_audio (audio_file : upload) (s : fs) : string * fs :=
      let filename :=
        match up_name audio_file with Some n => n | None => "audio.wav" end in
      let file_ext := PyStr.lower (PyStr.last_item (PyStr.split "." filename)) in
      let run :=
        temp_path <- save_upload file_ext ;;
        try_finally (transcribe_body file_ext temp_path)
                    (unlink_quietly temp_path) in
      match run s with
      | (Ok text, s') => (text, s')
      | (Raise e, s') => (outer_handler e, s')
      end.

End Run.

End Transcribe.

(* ===================================================================== *)
(** ** [generate_ai_notes] (app.py, lines 141-200) *)
(* ===================================================================== *)

Module Notes.
Import Py.

  (** What [generate_ai_notes] takes from outside: the iteration order
      of a Python [set] built from a list of words, and the answer of
      the summarization pipeline ([summary[0]['summary_text']], or the
      exception it raises).  The pipeline itself is taken as loaded. *)
Record Env : Type := {
    set_iter : list string -> list string;
    summarizer : string -> result string
  }.

  (** A set holds each word of the list once, in some order. *)
Definition set_iter_ok (f : list string -> list string) : Prop :=
    forall l, NoDup (f l) /\ (forall x, In x (f l) <-> In x l).

  (** [sorted(..., key=len, reverse=True)]: descending length; the
      sort is stable, so words of equal length keep their order. *)
Fixpoint insert_desc (x : string) (l : list string) : list string :=
    match l with
    | [] => [x]
    | y :: r =>
        if (String.length x <? String.length y)%nat
        then y :: insert_desc x r
        else x :: y :: r
    end.

Definition sorted_len_desc (l : list string) : list string :=
    fold_right insert_desc [] l.

  (** [l[i]] *)
Definition index (l : list string) (i : nat) : result string :=
    match nth_error l i with
    | Some x => Ok x
    | None => Raise (mk_exn IndexError "list index out of range")
    end.

Definition rbind {A B : Type} (r : result A) (k : A -> result B) : result B :=
    match r with
    | Ok a => k a
    | Raise e => Raise e
    end.

  (** Lines 151-153: the transcript as rebound before everything that
      follows. *)
Definition notes_transcript (transcript : string) : string :=
    let words := PyStr.split_ws transcript in
    if (900 <? List.length words)%nat
    then PyStr.join " " (firstn 900 words)
    else transcript.

  (** Lines 155-160 *)
Definition summary_text (env : Env) (transcript : string) : string :=
    match summarizer env transcript with
    | Ok s => s
    | Raise _ => "Summary could not be generated."
    end.

  (** Lines 163-164 *)
Definition key_points (transcript : string) : list string :=
    let sentences := PyStr.split ". " transcript in
    map (fun s => PyStr.strip s ++ ".")
        (filter (fun s => (20 <? String.length (PyStr.strip s))%nat)
                (firstn 5 sentences)).

  (** Line 165 *)
Definition bullet_points (transcript : string) : string :=
    PyStr.join "
" (map (fun point => "• " ++ point) (key_points transcript)).

  (** Line 168 *)
Definition important_words (env : Env) (transcript : string) : list string :=
    firstn 10
      (sorted_len_desc (set_iter env (PyStr.split_ws (PyStr.lower transcript)))).

  (** The four interpolated options of the quiz template, evaluated in
      the order of lines 173, 174, 179, 180. *)
Definition quiz_options (iw : list string)
    : result (string * string * string * string) :=
    rbind (index iw 0) (fun w0 =>
    rbind (index iw 1) (fun w1 =>
    rbind (if (2 <? List.length iw)%nat
           then rbind (index iw 2) (fun x => Ok (PyStr.capitalize x))
           else Ok "Topic") (fun o2 =>
    rbind (if (3 <? List.length iw)%nat
           then rbind (index iw 3) (fun x => Ok (PyStr.capitalize x))
           else Ok "Discussion") (fun o3 =>
    Ok (PyStr.capitalize w0, PyStr.capitalize w1, o2, o3))))).

  (** Lines 169-186 *)
Definition quiz_questions (iw : list string) : result string :=
    rbind (quiz_options iw) (fun '(o0, o1, o2, o3) =>
    Ok ("
## 📋 Test Your Knowledge

1. **What was the main topic discussed?**
   - a) " ++ o0 ++ "
   - b) " ++ o1 ++ "
   - c) General information
   - **Answer: a**

2. **Key concepts mentioned:**
   - a) " ++ o2 ++ "
   - b) " ++ o3 ++ "
   - c) Both of the above
   - **Answer: c**

3. **True or False: The transcript covered important details.**
   - **Answer: True**
")).

  (** The list the quiz is written from, for the transcript passed to
      [generate_ai_notes]. *)
Definition notes_important_words (env : Env) (transcript : string)
    : list string :=
    important_words env (notes_transcript transcript).

  (** The bullets of the notes, for the transcript passed to
      [generate_ai_notes]. *)
Definition notes_key_points (transcript : string) : list string :=
    key_points (notes_transcript transcript).

  (** [generate_ai_notes(transcript)] *)
Definition generate_ai_notes (env : Env) (transcript : string)
    : result string :=
    let transcript := notes_transcript transcript in
    let summary := summary_text env transcript in
    let bullets := bullet_points transcript in
    rbind (quiz_questions (important_words env transcript)) (fun quiz =>
    Ok ("
## 📝 Study Notes

### Executive Summary
" ++ summary ++ "

### Key Points
" ++ bullets ++ "

" ++ quiz ++ "
")).

  (** The reading that takes the quiz words from the whole transcript,
      whatever its length. *)
Definition full_transcript_words (env : Env) (transcript : string)
    : list string :=
    important_words env transcript.

  (** The reading that takes as bullets the first five fragments among
      those longer than 20 characters. *)
Definition first_five_long (transcript : string) : list string :=
    map (fun s => PyStr.strip s ++ ".")
        (firstn 5
           (filter (fun s => (20 <? String.length (PyStr.strip s))%nat)
                   (PyStr.split ". " transcript))).

  (** A set iteration order: first occurrences, in list order. *)
Definition insertion_order (l : list string) : list string :=
    rev (nodup string_dec (rev l)).

End Notes.

(* ===================================================================== *)
(** ** The YouTube flow of the second tab (app.py, lines 252-290) *)
(* ===================================================================== *)

Module YouTube.

  (** The exception classes of youtube_transcript_api the flow names. *)
Inductive yt_class : Type :=
  | TranscriptsDisabled
  | NoTranscriptFound
  | VideoUnavailable
  | CouldNotRetrieveTranscript.

  (** What the flow uses of youtube_transcript_api.  Fetched data is
      the list of the [text] of its items; the class hierarchy of the
      library's exceptions is behind [isinstance]. *)
Record Api : Type := {
    exn : Type;
    isinstance : exn -> yt_class -> bool;
    str : exn -> string;
    track : Type;
    (** [ytt.fetch(video_id)] *)
    fetch : string -> exn + list string;
    (** [ytt.list(video_id)] *)
    list_tracks : string -> exn + list track;
    (** [t.fetch()] *)
    fetch_track : track -> exn + list string
  }.

Inductive outcome : Type :=
  | Idle                                   (* nothing entered *)
  | Retrieved (transcript_text : string)   (* [st.success], transcript set *)
  | Reported (message : string).           (* [st.error] *)

Section Flow.
Context (api : Api).

    (** Truth value of fetched data: non-empty. *)
Definition truthy (data : list string) : bool :=
      match data with [] => false | _ => true end.

    (** [except (NoTranscriptFound, CouldNotRetrieveTranscript,
        TranscriptsDisabled)] of line 263 *)
Definition caught_by_fallback (e : exn api) : bool :=
      isinstance api e NoTranscriptFound
      || isinstance api e CouldNotRetrieveTranscript
      || isinstance api e TranscriptsDisabled.

    (** The loop of lines 267-273, from the current value of [data]. *)
Fixpoint try_tracks (ts : list (track api)) (data : option (list string))
      : option (list string) :=
      match ts with
      | [] => data
      | t :: rest =>
          match fetch_track api t with
          | inr d => if truthy d then Some d else try_tracks rest (Some d)
          | inl _ => try_tracks rest data
          end
      end.

    (** The handlers of lines 281-288, in order. *)
Definition report (e : exn api) : string :=
      if isinstance api e TranscriptsDisabled
      then "Transcripts are disabled for this video."
      else if isinstance api e VideoUnavailable
      then "Video unavailable — check the URL or region restrictions."
      else if isinstance api e NoTranscriptFound
      then "No transcript found for this video. It may not have captions (CC)."
      else "Could not get transcript: " ++ str api e.

    (** Lines 259-276: the data, or the exception that leaves the
        inner [try]. *)
Definition fetch_with_fallback (video_id : string) : exn api + list string :=
      match fetch api video_id with
      | inr data => inr data
      | inl e =>
          if caught_by_fallback e
          then match list_tracks api video_id with
               | inl e' => inl e'
               | inr ts =>
                   match try_tracks ts None with
                   | None => inl e
                   | Some data => inr data
                   end
               end
          else inl e
      end.

    (** Lines 252-290 once the button is pressed. *)
Definition youtube_flow (yt_url : string) : outcome :=
      if PyStr.is_empty yt_url then Idle
      else
        match VideoId.extract_video_id yt_url with
        | None => Reported "Invalid YouTube URL."
        | Some video_id =>
            match fetch_with_fallback video_id with
            | inr data => Retrieved (PyStr.join " " data)
            | inl e => Reported (report e)
            end
        end.

    (** The reading that stops at the first track whose fetch does not
        raise. *)
Fixpoint first_fetched (ts : list (track api)) : option (list string) :=
      match ts with
      | [] => None
      | t :: rest =>
          match fetch_track api t with
          | inr d => Some d
          | inl _ => first_fetched rest
          end
      end.

    (** What the flow would show if the fallback took the first track
        whose fetch does not raise. *)
Definition first_fetched_outcome (e : exn api) (ts : list (track api))
      : outcome :=
      match first_fetched ts with
      | Some data => Retrieved (PyStr.join " " data)
      | None => Reported (report e)
      end.

End Flow.

End YouTube.

(* ===================================================================== *)
(** ** Concrete instances used to run the definitions *)
(* ===================================================================== *)

Module Demo.
Import Py.

(** A buffer reduced to what the program reads of it: rate, channel
    count and length in milliseconds.  Changing the rate or the
    channel count keeps the length. *)
Record segment : Type := {
    seg_rate : N;
    seg_channels : N;
    seg_len : N
}.

Definition pydub : Transcribe.Pydub := {|
    Transcribe.AudioSegment := segment;
    Transcribe.len := seg_len;
    Transcribe.slice := fun a start stop =>
      {| seg_rate := seg_rate a; seg_channels := seg_channels a;
         seg_len := N.min stop (seg_len a) - start |};
    Transcribe.set_frame_rate := fun r a =>
      {| seg_rate := r; seg_channels := seg_channels a; seg_len := seg_len a |};
    Transcribe.set_channels := fun c a =>
      {| seg_rate := seg_rate a; seg_channels := c; seg_len := seg_len a |};
    Transcribe.frame_rate := seg_rate;
    Transcribe.channels := seg_channels
|}.

Definition canonical (len_ms : N) : segment :=
    {| seg_rate := 16000; seg_channels := 1; seg_len := len_ms |}.

(** A world where every file operation succeeds, every decoded file
    is [audio] and the [i]-th window is answered by [recognize i]. *)
Definition world (audio : segment) (recognize : N -> result string)
    : Transcribe.World pydub :=
    Transcribe.Build_World pydub
      (Ok "/tmp/tmpab12cd")        (* w_tempfile *)
      (Ok tt)                      (* w_write_upload *)
      (fun _ => Ok true)           (* w_open_video *)
      (fun _ => Ok tt)             (* w_write_audiofile *)
      (Ok tt)                      (* w_close_video *)
      (fun _ => Ok audio)          (* w_from_file *)
      (fun _ => Ok audio)          (* w_from_mp3 *)
      (fun _ => Ok audio)          (* w_from_wav *)
      (fun _ => Ok audio)          (* w_from_ogg *)
      (fun _ _ => Ok audio)        (* w_from_file_format *)
      (fun _ => Ok tt)             (* w_unlink *)
      (fun i _ => recognize i).    (* w_recognize *)

(** The same world, except that the extracted WAV cannot be loaded. *)
Definition world_wav_unreadable (audio : segment)
    (recognize : N -> result string) : Transcribe.World pydub :=
    Transcribe.Build_World pydub
      (Ok "/tmp/tmpab12cd")
      (Ok tt)
      (fun _ => Ok true)
      (fun _ => Ok tt)
      (Ok tt)
      (fun _ => Raise (mk_exn OtherException "Decoding failed"))
      (fun _ => Ok audio)
      (fun _ => Ok audio)
      (fun _ => Ok audio)
      (fun _ _ => Ok audio)
      (fun _ => Ok tt)
      (fun i _ => recognize i).

(** Window 0 is recognized, window 1 is not understood, and every
    later request fails. *)
Definition recognize_mixed (i : N) : result string :=
    if (i =? 0)%N then Ok "hello world"
    else if (i =? 1)%N then Raise (mk_exn UnknownValueError "")
    else Raise (mk_exn RequestError "connection failed").

Definition recognize_all (i : N) : result string := Ok "word".

(** Sets iterate in insertion order; the summarizer answers. *)
Definition env : Notes.Env := {|
    Notes.set_iter := Notes.insertion_order;
    Notes.summarizer := fun _ => Ok "A summary."
|}.

(** 900 one-letter words followed by one long word. *)
Definition long_transcript : string :=
    PyStr.join " " (repeat "a" 900 ++ ["extraordinary"])%list.

(** Five short fragments, then a long one. *)
Definition late_sentence : string :=
    "A. B. C. D. E. This sentence is longer than twenty characters".

(** Captions where an exception is its class, every class derives
    from [CouldNotRetrieveTranscript], a track is what fetching it
    yields, and the default fetch yields [default]. *)
Definition api (default : YouTube.yt_class + list string)
    (tracks : list (YouTube.yt_class + list string)) : YouTube.Api := {|
    YouTube.exn := YouTube.yt_class;
    YouTube.isinstance := fun e c =>
      match c, e with
      | YouTube.CouldNotRetrieveTranscript, _ => true
      | YouTube.TranscriptsDisabled, YouTube.TranscriptsDisabled => true
      | YouTube.NoTranscriptFound, YouTube.NoTranscriptFound => true
      | YouTube.VideoUnavailable, YouTube.VideoUnavailable => true
      | _, _ => false
      end;
    YouTube.str := fun e =>
      match e with
      | YouTube.TranscriptsDisabled => "Subtitles are disabled for this video"
      | YouTube.NoTranscriptFound => "No transcripts were found"
      | YouTube.VideoUnavailable => "The video is no longer available"
      | YouTube.CouldNotRetrieveTranscript => "Could not retrieve a transcript"
      end;
    YouTube.track := YouTube.yt_class + list string;
    YouTube.fetch := fun _ => default;
    YouTube.list_tracks := fun _ => inr tracks;
    YouTube.fetch_track := fun t => t
|}.

Definition watch_url : string := "https://youtube.com/watch?v=ABCDEFGHIJK".

(** No default transcript; the first track fetches empty data, the
    second has two caption items. *)
Definition tracks_first_empty : list (YouTube.yt_class + list string) :=
    [inr []; inr ["hi"; "there"]].

(** No default transcript; the first track cannot be fetched, the
    second fetches empty data, the third has two caption items. *)
Definition tracks_third_good : list (YouTube.yt_class + list string) :=
    [inl YouTube.VideoUnavailable; inr []; inr ["hi"; "there"]].

End Demo.

(* ===================================================================== *)
(** ** The two tabs and the final display (app.py, lines 207-307) *)
(* ===================================================================== *)

Module App.
Import Py.

(** [sub in s] for strings. *)
Fixpoint contains (sub : string) (s : string) : bool :=
    prefix sub s
    || match s with
       | EmptyString => false
       | String _ r => contains sub r
       end.

(** What the first tab shows once the button is pressed. *)
Inductive tab1_outcome : Type :=
| Transcribed (transcript_text : string)   (* [st.success], lines 242-244 *)
| TranscribeError (message : string).      (* [st.error], line 246 *)

(** Lines 229-246: [AudioData] carries the name of the uploaded file;
    the test of line 241 decides what is shown.  The first component
    is the value left in [transcript_text]. *)
Definition upload_flow {P : Transcribe.Pydub} (w : Transcribe.World P)
    (name : string) (s : fs) : string * tab1_outcome * fs :=
    let '(transcript_text, s') :=
      Transcribe.transcribe_audio w {| Transcribe.up_name := Some name |} s in
    if negb (PyStr.is_empty transcript_text)
       && negb (contains "Error" transcript_text)
    then (transcript_text, Transcribed transcript_text, s')
    else (transcript_text, TranscribeError transcript_text, s').

(** What the final display shows. *)
Inductive final_outcome : Type :=
| NoOutput                               (* [transcript_text] is empty *)
| StudyGuide (final_notes : string)      (* lines 298-305 *)
| NotesError (message : string).         (* line 307 *)

(** Lines 293-307 *)
Definition final_output (env : Notes.Env) (transcript_text : string)
    : final_outcome :=
    if PyStr.is_empty transcript_text then NoOutput
    else match Notes.generate_ai_notes env transcript_text with
         | Ok final_notes => StudyGuide final_notes
         | Raise e => NotesError ("⚠️ Error generating notes: " ++ exn_str e)
         end.

(** One run of the script with the button of the first tab pressed
    and no URL entered in the second. *)
Definition upload_run {P : Transcribe.Pydub} (w : Transcribe.World P)
    (env : Notes.Env) (name : string) (s : fs)
    : tab1_outcome * final_outcome * fs :=
    let '(transcript_text, shown, s') := upload_flow w name s in
    (shown, final_output env transcript_text, s').

(** One run of the script with the button of the second tab pressed:
    [transcript_text] is set only when the transcript was retrieved. *)
Definition youtube_run (api : YouTube.Api) (env : Notes.Env) (yt_url : string)
    : YouTube.outcome * final_outcome :=
    let shown := YouTube.youtube_flow api yt_url in
    let transcript_text :=
      match shown with
      | YouTube.Retrieved text => text
      | _ => EmptyString
      end in
    (shown, final_output env transcript_text).

(** A computation changes the file store at most at [paths]. *)
Definition touches_only {A : Type} (paths : list string) (m : M A) : Prop :=
    forall s q, ~ In q paths ->
                file_exists q (snd (m s)) = file_exists q s.


(** The extension of line 38. *)
Definition file_ext_of (filename : string) : string :=
    PyStr.lower (PyStr.last_item (PyStr.split "." filename)).

(** The path of line 63. *)
Definition wav_path_of (file_ext temp_path : string) : string :=
    PyStr.replace ("." ++ file_ext) "_audio.wav" temp_path.

End App.

Module Demo2.
Import Py.

(** A world for a video that has no audio track. *)
Definition world_silent_video : Transcribe.World Demo.pydub :=
    Transcribe.Build_World Demo.pydub
      (Ok "/tmp/tmpab12cd") (Ok tt)
      (fun _ => Ok false)
      (fun _ => Ok tt) (Ok tt)
      (fun _ => Ok (Demo.canonical 1000))
      (fun _ => Ok (Demo.canonical 1000))
      (fun _ => Ok (Demo.canonical 1000))
      (fun _ => Ok (Demo.canonical 1000))
      (fun _ _ => Ok (Demo.canonical 1000))
      (fun _ => Ok tt)
      (fun _ _ => Ok "word").

(** A world where writing the upload to the temporary file fails. *)
Definition world_disk_full : Transcribe.World Demo.pydub :=
    Transcribe.Build_World Demo.pydub
      (Ok "/tmp/tmpab12cd")
      (Raise (mk_exn OSError "No space left on device"))
      (fun _ => Ok true)
      (fun _ => Ok tt) (Ok tt)
      (fun _ => Ok (Demo.canonical 1000))
      (fun _ => Ok (Demo.canonical 1000))
      (fun _ => Ok (Demo.canonical 1000))
      (fun _ => Ok (Demo.canonical 1000))
      (fun _ _ => Ok (Demo.canonical 1000))
      (fun _ => Ok tt)
      (fun _ _ => Ok "word").

(** A world where the video clip cannot be opened. *)
Definition world_unopenable_video : Transcribe.World Demo.pydub :=
    Transcribe.Build_World Demo.pydub
      (Ok "/tmp/tmpab12cd") (Ok tt)
      (fun _ => Raise (mk_exn OSError "MoviePy error: failed to read the file"))
      (fun _ => Ok tt) (Ok tt)
      (fun _ => Ok (Demo.canonical 1000))
      (fun _ => Ok (Demo.canonical 1000))
      (fun _ => Ok (Demo.canonical 1000))
      (fun _ => Ok (Demo.canonical 1000))
      (fun _ _ => Ok (Demo.canonical 1000))
      (fun _ => Ok tt)
      (fun _ _ => Ok "word").


(** Window 0 is recognized, the service then breaks down in a way
    that is neither of the two classes the loop handles. *)
Definition recognize_then_crash (i : N) : result string :=
    if (i =? 0)%N then Ok "hello"
    else Raise (mk_exn OtherException "broken pipe").


(** Captions where an exception is its class and no class derives
    from another; the default fetch raises [default], listing the
    tracks raises [listing]. *)
Definition api_listing_fails (default listing : YouTube.yt_class)
    : YouTube.Api := {|
    YouTube.exn := YouTube.yt_class;
    YouTube.isinstance := fun e c =>
      match e, c with
      | YouTube.TranscriptsDisabled, YouTube.TranscriptsDisabled => true
      | YouTube.NoTranscriptFound, YouTube.NoTranscriptFound => true
      | YouTube.VideoUnavailable, YouTube.VideoUnavailable => true
      | YouTube.CouldNotRetrieveTranscript,
        YouTube.CouldNotRetrieveTranscript => true
      | _, _ => false
      end;
    YouTube.str := fun _ => "failure";
    YouTube.track := unit;
    YouTube.fetch := fun _ => inl default;
    YouTube.list_tracks := fun _ => inl listing;
    YouTube.fetch_track := fun _ => inl default
|}.

End Demo2.

(* ===================================================================== *)
(** ** Text as code points *)
(* ===================================================================== *)

(** [generate_ai_notes] counts characters ([len]), splits on every
    Unicode blank and changes case; for these a Python string is the
    list of its code points.  Literals are written in UTF-8 and
    decoded by [utf8]. *)
Module Text.
Local Open Scope list_scope.

Definition str : Type := list N.

(** The code points of a well-formed UTF-8 byte sequence. *)
Fixpoint of_bytes (bs : list N) : str :=
    match bs with
    | [] => []
    | b :: r =>
        if (b <? 128)%N then b :: of_bytes r
        else if (b <? 224)%N then
          match r with
          | b1 :: r' => ((b - 192) * 64 + (b1 - 128))%N :: of_bytes r'
          | _ => []
          end
        else if (b <? 240)%N then
          match r with
          | b1 :: b2 :: r' =>
              ((b - 224) * 4096 + (b1 - 128) * 64 + (b2 - 128))%N
              :: of_bytes r'
          | _ => []
          end
        else
          match r with
          | b1 :: b2 :: b3 :: r' =>
              ((b - 240) * 262144 + (b1 - 128) * 4096 + (b2 - 128) * 64
               + (b3 - 128))%N :: of_bytes r'
          | _ => []
          end
    end.

Definition utf8 (s : string) : str :=
    of_bytes (map N_of_ascii (list_ascii_of_string s)).

Definition eq_dec : forall a b : str, {a = b} + {a <> b} :=
    list_eq_dec N.eq_dec.

(** [str.isspace] on one code point: the characters [str.split()]
    and [str.strip()] treat as blanks. *)
Definition is_space (c : N) : bool :=
    (((9 <=? c) && (c <=? 13))            (* TAB LF VT FF CR *)
     || ((28 <=? c) && (c <=? 32))        (* FS GS RS US SPACE *)
     || (c =? 133)                        (* U+0085 *)
     || (c =? 160)                        (* U+00A0 *)
     || (c =? 5760)                       (* U+1680 *)
     || ((8192 <=? c) && (c <=? 8202))    (* U+2000..U+200A *)
     || (c =? 8232) || (c =? 8233)        (* U+2028 U+2029 *)
     || (c =? 8239)                       (* U+202F *)
     || (c =? 8287)                       (* U+205F *)
     || (c =? 12288))%N.                  (* U+3000 *)

(** [s.split()] with no argument; [cur] is the word being read. *)
Fixpoint split_ws_aux (cur : str) (s : str) : list str :=
    match s with
    | [] => match cur with [] => [] | _ => [cur] end
    | c :: r =>
        if is_space c
        then match cur with
             | [] => split_ws_aux [] r
             | _ => cur :: split_ws_aux [] r
             end
        else split_ws_aux (cur ++ [c]) r
    end.

Definition split_ws (s : str) : list str := split_ws_aux [] s.

(** [s.startswith(p)] *)
Fixpoint starts_with (p s : str) : bool :=
    match p, s with
    | [], _ => true
    | _ :: _, [] => false
    | a :: p', b :: s' => (a =? b)%N && starts_with p' s'
    end.

(** [s.split(sep)] for a non-empty separator; after an occurrence is
    found at the current character, [skip] counts its remaining
    characters. *)
Fixpoint split_aux (sep : str) (skip : nat) (cur : str) (s : str)
    : list str :=
    match s with
    | [] => [cur]
    | c :: r =>
        match skip with
        | S k => split_aux sep k cur r
        | O =>
            if starts_with sep s
            then cur :: split_aux sep (List.length sep - 1) [] r
            else split_aux sep 0 (cur ++ [c]) r
        end
    end.

Definition split (sep : str) (s : str) : list str := split_aux sep 0 [] s.

(** [sep.join(l)] *)
Fixpoint join (sep : str) (l : list str) : str :=
    match l with
    | [] => []
    | x :: rest =>
        match rest with
        | [] => x
        | _ => x ++ sep ++ join sep rest
        end
    end.

Fixpoint drop_space (l : str) : str :=
    match l with
    | [] => []
    | c :: r => if is_space c then drop_space r else l
    end.

(** [s.strip()] *)
Definition strip (s : str) : str :=
    rev (drop_space (rev (drop_space s))).

(** [sub in s] *)
Fixpoint contains (sub : str) (s : str) : bool :=
    starts_with sub s
    || match s with
       | [] => false
       | _ :: r => contains sub r
       end.

(** A word: not empty, no blank in it. *)
Definition is_word (w : str) : Prop :=
    w <> [] /\ forallb (fun c => negb (is_space c)) w = true.

End Text.

(* ===================================================================== *)
(** ** [generate_ai_notes] over code points (app.py, lines 141-200) *)
(* ===================================================================== *)

Module NotesU.
Import Py.
Import Text.
Local Open Scope list_scope.

(** What [generate_ai_notes] takes from outside: the iteration order
    of a [set] of words; [load_summarizer()], which raises or gives
    the summarizer, itself answering [summary[0]['summary_text']] or
    raising; and [str.lower] and [str.capitalize], whose case tables
    are those of Unicode. *)
Record Env : Type := {
    set_iter : list str -> list str;
    load_summarizer : result (str -> result str);
    lower : str -> str;
    capitalize : str -> str
}.

Definition set_iter_ok (f : list str -> list str) : Prop :=
    forall l, NoDup (f l) /\ (forall x, In x (f l) <-> In x l).

(** [sorted(..., key=len, reverse=True)]: descending [len], words of
    equal length in their order of arrival. *)
Fixpoint insert_desc (x : str) (l : list str) : list str :=
    match l with
    | [] => [x]
    | y :: r =>
        if (List.length x <? List.length y)%nat
        then y :: insert_desc x r
        else x :: y :: r
    end.

Definition sorted_len_desc (l : list str) : list str :=
    fold_right insert_desc [] l.

(** [l[i]] *)
Definition index (l : list str) (i : nat) : result str :=
    match nth_error l i with
    | Some x => Ok x
    | None => Raise (mk_exn IndexError "list index out of range")
    end.

Definition rbind {A B : Type} (r : result A) (k : A -> result B) : result B :=
    match r with
    | Ok a => k a
    | Raise e => Raise e
    end.

(** Lines 151-153 *)
Definition notes_transcript (transcript : str) : str :=
    let words := split_ws transcript in
    if (900 <? List.length words)%nat
    then join (utf8 " ") (firstn 900 words)
    else transcript.

(** Lines 155-160 *)
Definition summary_text (summarizer : str -> result str) (transcript : str)
    : str :=
    match summarizer transcript with
    | Ok s => s
    | Raise _ => utf8 "Summary could not be generated."
    end.

(** Lines 163-164 *)
Definition key_points (transcript : str) : list str :=
    let sentences := split (utf8 ". ") transcript in
    map (fun s => strip s ++ utf8 ".")
        (filter (fun s => (20 <? List.length (strip s))%nat)
                (firstn 5 sentences)).

(** Line 165 *)
Definition bullet_points (transcript : str) : str :=
    join [10%N] (map (fun point => utf8 "• " ++ point) (key_points transcript)).

(** Line 168 *)
Definition important_words (env : Env) (transcript : str) : list str :=
    firstn 10
      (sorted_len_desc (set_iter env (split_ws (lower env transcript)))).

(** The four interpolated options of the quiz template, evaluated in
    the order of lines 173, 174, 179, 180. *)
Definition quiz_options (env : Env) (iw : list str)
    : result (str * str * str * str) :=
    rbind (index iw 0) (fun w0 =>
    rbind (index iw 1) (fun w1 =>
    rbind (if (2 <? List.length iw)%nat
           then rbind (index iw 2) (fun x => Ok (capitalize env x))
           else Ok (utf8 "Topic")) (fun o2 =>
    rbind (if (3 <? List.length iw)%nat
           then rbind (index iw 3) (fun x => Ok (capitalize env x))
           else Ok (utf8 "Discussion")) (fun o3 =>
    Ok (capitalize env w0, capitalize env w1, o2, o3))))).

(** Lines 169-186 *)
Definition quiz_questions (env : Env) (iw : list str) : result str :=
    rbind (quiz_options env iw) (fun '(o0, o1, o2, o3) =>
    Ok (utf8 "
## 📋 Test Your Knowledge

1. **What was the main topic discussed?**
   - a) " ++ o0 ++ utf8 "
   - b) " ++ o1 ++ utf8 "
   - c) General information
   - **Answer: a**

2. **Key concepts mentioned:**
   - a) " ++ o2 ++ utf8 "
   - b) " ++ o3 ++ utf8 "
   - c) Both of the above
   - **Answer: c**

3. **True or False: The transcript covered important details.**
   - **Answer: True**
")%list).

Definition notes_important_words (env : Env) (transcript : str) : list str :=
    important_words env (notes_transcript transcript).

Definition notes_key_points (transcript : str) : list str :=
    key_points (notes_transcript transcript).

(** [generate_ai_notes(transcript)] *)
Definition generate_ai_notes (env : Env) (transcript : str) : result str :=
    rbind (load_summarizer env) (fun summarizer =>
    let transcript := notes_transcript transcript in
    let summary := summary_text summarizer transcript in
    let bullets := bullet_points transcript in
    rbind (quiz_questions env (important_words env transcript)) (fun quiz =>
    Ok (utf8 "
## 📝 Study Notes

### Executive Summary
" ++ summary ++ utf8 "

### Key Points
" ++ bullets ++ utf8 "

" ++ quiz ++ [10%N])%list)).

(** The reading that takes the quiz words from the whole transcript,
    whatever its length. *)
Definition full_transcript_words (env : Env) (transcript : str) : list str :=
    important_words env transcript.

(** The reading that takes as bullets the first five fragments among
    those longer than 20 characters. *)
Definition first_five_long (transcript : str) : list str :=
    map (fun s => strip s ++ utf8 ".")
        (firstn 5
           (filter (fun s => (20 <? List.length (strip s))%nat)
                   (split (utf8 ". ") transcript))).

(** Case tables restricted to the letters A-Z and a-z. *)
Definition ascii_lower (s : str) : str :=
    map (fun c => if ((65 <=? c) && (c <=? 90))%N then (c + 32)%N else c) s.

Definition ascii_capitalize (s : str) : str :=
    match s with
    | [] => []
    | c :: r =>
        (if ((97 <=? c) && (c <=? 122))%N then (c - 32)%N else c)
        :: ascii_lower r
    end.

(** Sets iterate in insertion order, the summarizer loads and
    answers, and the text has no letter outside ASCII to change. *)
Definition demo_env : Env := {|
    set_iter := fun l => rev (nodup eq_dec (rev l));
    load_summarizer := Ok (fun _ => Ok (utf8 "A summary."));
    lower := ascii_lower;
    capitalize := ascii_capitalize
|}.

End NotesU.

(* ===================================================================== *)
(** * Properties *)
(* ===================================================================== *)

(** ** Strings *)

Lemma append_nil_r (s : string) : s ++ "" = s.
Proof. induction s as [|c s IH]; simpl; [reflexivity | now rewrite IH]. Qed.

Lemma append_assoc (a b c : string) : (a ++ b) ++ c = a ++ (b ++ c).
Proof. induction a as [|x a IH]; simpl; [reflexivity | now rewrite IH]. Qed.

Lemma length_append (a b : string) :
  String.length (a ++ b) = String.length a + String.length b.
Proof. induction a as [|x a IH]; simpl; [reflexivity | now rewrite IH]. Qed.

Lemma take_drop (n : nat) (s : string) : PyStr.take n s ++ PyStr.drop n s = s.
Proof.
  revert s; induction n as [|n IH]; intros [|c s]; simpl; try reflexivity.
  now rewrite IH.
Qed.

Lemma drop_append (a b : string) : PyStr.drop (String.length a) (a ++ b) = b.
Proof. induction a as [|x a IH]; simpl; [reflexivity | exact IH]. Qed.

Lemma length_take (n : nat) (s : string) :
  n <= String.length s -> String.length (PyStr.take n s) = n.
Proof.
  revert s; induction n as [|n IH]; intros [|c s] H; simpl in *; try lia.
  rewrite IH; lia.
Qed.

Lemma drop_drop_1 (n : nat) (c : ascii) (s : string) :
  PyStr.drop (S n) (String c s) = PyStr.drop n s.
Proof. reflexivity. Qed.

Example split_sentences :
  PyStr.split ". " "A. B is longer than twenty chars here. C."
  = ["A"; "B is longer than twenty chars here"; "C."].
Proof. reflexivity. Qed.

Example split_keeps_empty_fragments :
  PyStr.split ". " "a. . b. " = ["a"; ""; "b"; ""].
Proof. reflexivity. Qed.

Example split_ws_runs :
  PyStr.split_ws "  the  quick brown " = ["the"; "quick"; "brown"].
Proof. reflexivity. Qed.

Example strip_both_ends : PyStr.strip "  a b  " = "a b".
Proof. reflexivity. Qed.

Example capitalize_word : PyStr.capitalize "hELLO" = "Hello".
Proof. reflexivity. Qed.

Example replace_suffix :
  PyStr.replace ".mp4" "_audio.wav" "/tmp/tmpab12cd.mp4"
  = "/tmp/tmpab12cd_audio.wav".
Proof. reflexivity. Qed.

Example sorted_is_stable :
  Notes.sorted_len_desc ["ab"; "cd"; "e"; "fgh"] = ["fgh"; "ab"; "cd"; "e"].
Proof. reflexivity. Qed.

(** ** [extract_video_id] *)

Section VideoIdFacts.
Import VideoId.

Lemma take_id_sound (n : nat) : forall s g,
    take_id n s = Some g ->
    exists post, s = g ++ post /\ String.length g = n
                 /\ PyStr.all_chars is_id_char g = true.
  Proof.
    induction n as [|n IH]; intros s g H; simpl in H.
    - injection H as <-. exists s. auto.
    - destruct s as [|c r]; [discriminate|].
      destruct (is_id_char c) eqn:Hc; [|discriminate].
      destruct (take_id n r) as [g'|] eqn:Hg; [|discriminate].
      injection H as <-.
      destruct (IH _ _ Hg) as (post & -> & Hl & Ha).
      exists post. simpl. rewrite Hc, Ha, Hl. auto.
  Qed.

Lemma take_id_complete (g post : string) :
    PyStr.all_chars is_id_char g = true ->
    take_id (String.length g) (g ++ post) = Some g.
  Proof.
    induction g as [|c g IH]; simpl; intros H; [reflexivity|].
    apply andb_true_iff in H as [Hc Hg].
    rewrite Hc, (IH Hg). reflexivity.
  Qed.

Lemma match_at_cons (c : ascii) (r : string) :
    match_at (String c r) =
    if Ascii.eqb c "v"
    then match r with
         | String c' r' => if Ascii.eqb c' "=" then take_id 11 r' else None
         | EmptyString => None
         end
    else if Ascii.eqb c "/" then take_id 11 r else None.
  Proof.
    destruct c as [[] [] [] [] [] [] [] []]; try reflexivity;
      destruct r as [|c' r']; try reflexivity;
      destruct c' as [[] [] [] [] [] [] [] []]; reflexivity.
  Qed.

Lemma match_at_sound (s g : string) :
    match_at s = Some g ->
    exists p post, (p = "v=" \/ p = "/") /\ s = p ++ g ++ post /\ is_video_id g.
  Proof.
    destruct s as [|c r]; [discriminate|].
    rewrite match_at_cons.
    destruct (Ascii.eqb_spec c "v") as [->|_].
    - destruct r as [|c' r']; [discriminate|].
      destruct (Ascii.eqb_spec c' "=") as [->|_]; [|discriminate].
      intros H. destruct (take_id_sound _ _ _ H) as (post & -> & Hl & Ha).
      exists "v=", post. repeat split; auto.
    - destruct (Ascii.eqb_spec c "/") as [->|_]; [|discriminate].
      intros H. destruct (take_id_sound _ _ _ H) as (post & -> & Hl & Ha).
      exists "/", post. repeat split; auto.
  Qed.

Lemma match_at_complete (p g post : string) :
    (p = "v=" \/ p = "/") -> is_video_id g ->
    match_at (p ++ g ++ post) = Some g.
  Proof.
    intros Hp [Hl Ha].
    pose proof (take_id_complete g post Ha) as H. rewrite Hl in H.
    destruct Hp as [-> | ->]; simpl; exact H.
  Qed.

Lemma occurrence_match_at (url pre g : string) :
    occurrence url pre g -> match_at (PyStr.drop (String.length pre) url) = Some g.
  Proof.
    intros (p & post & Hp & -> & Hg).
    rewrite drop_append. now apply match_at_complete.
  Qed.

Lemma match_at_occurrence (url g : string) (n : nat) :
    match_at (PyStr.drop n url) = Some g ->
    occurrence url (PyStr.take n url) g /\ String.length (PyStr.take n url) = n.
  Proof.
    intros H.
    destruct (match_at_sound _ _ H) as (p & post & Hp & Hs & Hg).
    split.
    - exists p, post. split; [exact Hp|]. split; [|exact Hg].
      rewrite <- Hs. symmetry. apply take_drop.
    - apply length_take.
      assert (Hlen : String.length (PyStr.take n url ++ PyStr.drop n url)
                     = String.length url) by now rewrite take_drop.
      rewrite length_append in Hlen.
      destruct (le_lt_dec n (String.length url)) as [Hle|Hlt]; [exact Hle|].
      exfalso.
      assert (Hd : PyStr.drop n url = "").
      { clear -Hlt. revert url Hlt.
        induction n as [|n IH]; intros [|c s] Hlt; simpl in *;
          try reflexivity; try lia.
        apply IH. lia. }
      rewrite Hd in H. discriminate.
  Qed.

  (** [re.search] returns the capture at the first start position that
      matches. *)
Lemma re_search_some (s g : string) :
    re_search s = Some g <->
    exists n, match_at (PyStr.drop n s) = Some g
              /\ forall m, m < n -> match_at (PyStr.drop m s) = None.
  Proof.
    induction s as [|c r IH].
    - simpl. split.
      + discriminate.
      + intros (n & H & _). destruct n; discriminate.
    - change (re_search (String c r)) with
        (match match_at (String c r) with
         | Some g0 => Some g0
         | None => re_search r
         end).
      destruct (match_at (String c r)) as [g0|] eqn:H0.
      + split.
        * intros [= <-]. exists 0. split; [exact H0 | intros m Hm; lia].
        * intros (n & Hn & Hmin). destruct n as [|n].
          -- cbn [PyStr.drop] in Hn. congruence.
          -- specialize (Hmin 0 ltac:(lia)). cbn [PyStr.drop] in Hmin. congruence.
      + rewrite IH. split.
        * intros (n & Hn & Hmin). exists (S n). split; [exact Hn|].
          intros [|m] Hm; [exact H0 | apply Hmin; lia].
        * intros (n & Hn & Hmin). destruct n as [|n].
          -- cbn [PyStr.drop] in Hn. congruence.
          -- exists n. split; [exact Hn|].
             intros m Hm. apply (Hmin (S m)). lia.
  Qed.

Lemma re_search_none (s : string) :
    re_search s = None <-> forall n, match_at (PyStr.drop n s) = None.
  Proof.
    induction s as [|c r IH].
    - simpl. split; [intros _ [|n]; reflexivity | reflexivity].
    - change (re_search (String c r)) with
        (match match_at (String c r) with
         | Some g0 => Some g0
         | None => re_search r
         end).
      destruct (match_at (String c r)) as [g0|] eqn:H0.
      + split; [discriminate|]. intros H. specialize (H 0). cbn [PyStr.drop] in H. congruence.
      + rewrite IH. split.
        * intros H [|n]; [exact H0 | apply H].
        * intros H n. apply (H (S n)).
  Qed.

Lemma matches_before_false (n : nat) : forall s,
    matches_before n s = false ->
    forall m, m < n -> match_at (PyStr.drop m s) = None.
  Proof.
    induction n as [|n IH]; intros s H m Hm; [lia|].
    simpl in H.
    destruct (match_at s) eqn:H0; [discriminate|].
    destruct m as [|m]; [exact H0|].
    destruct s as [|c r]; [destruct m; reflexivity|].
    simpl. apply IH; [exact H | lia].
  Qed.

  (** No match starts before [pre] when the scan of the positions
      before it finds none. *)
Lemma leftmost_by_scan (url pre : string) :
    matches_before (String.length pre) url = false ->
    forall pre' g', occurrence url pre' g' ->
                    String.length pre <= String.length pre'.
  Proof.
    intros H pre' g' Hocc.
    destruct (le_lt_dec (String.length pre) (String.length pre')) as [|Hlt];
      [assumption|].
    pose proof (matches_before_false _ _ H _ Hlt) as Hnone.
    rewrite (occurrence_match_at _ _ _ Hocc) in Hnone. discriminate.
  Qed.

End VideoIdFacts.

Example extract_watch :
  VideoId.extract_video_id "https://youtube.com/watch?v=ABCDEFGHIJK"
  = Some "ABCDEFGHIJK".
Proof. reflexivity. Qed.

Example extract_short :
  VideoId.extract_video_id "https://youtu.be/dQw4w9WgXcQ" = Some "dQw4w9WgXcQ".
Proof. reflexivity. Qed.

Example extract_none : VideoId.extract_video_id "not a url" = None.
Proof. reflexivity. Qed.

Example extract_too_short :
  VideoId.extract_video_id "https://youtu.be/short" = None.
Proof. reflexivity. Qed.

(** C6.  For every input string, [extract_video_id] returns an
    identifier exactly when the string contains a [v=] or a [/]
    immediately followed by 11 characters of [[0-9A-Za-z_-]]; the
    identifier returned is 11 such characters found right after one
    of these prefixes, and without such a place the result is
    [None]. *)
Theorem extract_video_id_iff_pattern (url : string) :
  ((exists g, VideoId.extract_video_id url = Some g)
   <-> (exists pre g, VideoId.occurrence url pre g))
  /\ (forall g, VideoId.extract_video_id url = Some g ->
                VideoId.is_video_id g
                /\ exists pre, VideoId.occurrence url pre g)
  /\ ((~ exists pre g, VideoId.occurrence url pre g) <->
      VideoId.extract_video_id url = None).
Proof.
  unfold VideoId.extract_video_id.
  assert (Hsound : forall g, VideoId.re_search url = Some g ->
                   VideoId.is_video_id g
                   /\ exists pre, VideoId.occurrence url pre g).
  { intros g H. apply re_search_some in H as (n & Hn & _).
    destruct (match_at_occurrence _ _ _ Hn) as [Hocc _].
    split; [|now exists (PyStr.take n url)].
    destruct Hocc as (p & post & _ & _ & Hg). exact Hg. }
  assert (Hnone : VideoId.re_search url = None ->
                  ~ exists pre g, VideoId.occurrence url pre g).
  { intros H (pre & g & Hocc).
    apply occurrence_match_at in Hocc.
    rewrite (proj1 (re_search_none url) H) in Hocc. discriminate. }
  split; [|split].
  - split.
    + intros (g & H). destruct (Hsound g H) as [_ [pre Hocc]]. now exists pre, g.
    + intros Hocc. destruct (VideoId.re_search url) as [g|] eqn:H.
      * now exists g.
      * exfalso. now apply (Hnone eq_refl).
  - exact Hsound.
  - split.
    + intros Hno. destruct (VideoId.re_search url) as [g|] eqn:H; [|reflexivity].
      exfalso. apply Hno. destruct (Hsound g eq_refl) as [_ [pre Hocc]].
      now exists pre, g.
    + exact Hnone.
Qed.

(** C10.  When the string has several places where a [v=] or a [/]
    is followed by 11 identifier characters, [extract_video_id]
    returns the capture of the leftmost one: the occurrence that no
    other occurrence starts before. *)
Theorem extract_video_id_leftmost (url pre g : string) :
  VideoId.occurrence url pre g ->
  (forall pre' g', VideoId.occurrence url pre' g' ->
                   String.length pre <= String.length pre') ->
  VideoId.extract_video_id url = Some g.
Proof.
  intros Hocc Hleft.
  unfold VideoId.extract_video_id.
  pose proof (occurrence_match_at _ _ _ Hocc) as Hm.
  destruct (VideoId.re_search url) as [g'|] eqn:H.
  - apply re_search_some in H as (n & Hn & Hmin).
    destruct (match_at_occurrence _ _ _ Hn) as [Hocc' Hlen].
    pose proof (Hleft _ _ Hocc') as Hle. rewrite Hlen in Hle.
    destruct (Nat.eq_dec (String.length pre) n) as [<-|Hne].
    + congruence.
    + rewrite (Hmin (String.length pre)) in Hm by lia. discriminate.
  - rewrite (proj1 (re_search_none url) H) in Hm. discriminate.
Qed.

(** A URL whose path has an 11-character segment before the [v=]
    parameter: the segment is returned, not the value of [v=]. *)
Lemma extract_video_id_leftmost_witness :
  VideoId.occurrence "https://youtube.com/abcdefghijk/watch?v=ABCDEFGHIJK"
                     "https://youtube.com" "abcdefghijk"
  /\ (forall pre' g',
        VideoId.occurrence
          "https://youtube.com/abcdefghijk/watch?v=ABCDEFGHIJK" pre' g' ->
        String.length "https://youtube.com" <= String.length pre')
  /\ VideoId.extract_video_id
       "https://youtube.com/abcdefghijk/watch?v=ABCDEFGHIJK"
     = Some "abcdefghijk".
Proof.
  assert (Hocc : VideoId.occurrence
                   "https://youtube.com/abcdefghijk/watch?v=ABCDEFGHIJK"
                   "https://youtube.com" "abcdefghijk").
  { exists "/", "/watch?v=ABCDEFGHIJK". repeat split. now right. }
  assert (Hleft : forall pre' g',
             VideoId.occurrence
               "https://youtube.com/abcdefghijk/watch?v=ABCDEFGHIJK" pre' g' ->
             String.length "https://youtube.com" <= String.length pre').
  { apply leftmost_by_scan. reflexivity. }
  split; [exact Hocc|]. split; [exact Hleft|].
  exact (extract_video_id_leftmost _ _ _ Hocc Hleft).
Defined.

(** ** Chunking and transcription *)

Section ChunkFacts.
Import Py Transcribe.
Local Open Scope N_scope.

Lemma num_chunks_bounds (total_len : N) :
  total_len <= chunk_ms * num_chunks total_len
  /\ chunk_ms * num_chunks total_len < total_len + chunk_ms.
Proof.
  unfold num_chunks, chunk_ms.
  pose proof (N.div_mod' (total_len + 30000 - 1) 30000) as Hdm.
  pose proof (N.mod_lt (total_len + 30000 - 1) 30000 ltac:(discriminate)) as Hlt.
  revert Hdm Hlt.
  generalize ((total_len + 30000 - 1) / 30000)
             ((total_len + 30000 - 1) mod 30000).
  intros q r Hdm Hlt. lia.
Qed.

(** [num_chunks] is the ceiling of [total_len / chunk_ms]: the least
    number of 30-second windows that cover the buffer. *)
Lemma num_chunks_ceiling (total_len : N) :
  total_len <= chunk_ms * num_chunks total_len
  /\ forall k, total_len <= chunk_ms * k -> num_chunks total_len <= k.
Proof.
  destruct (num_chunks_bounds total_len) as [H1 H2].
  split; [exact H1|]. intros k Hk. unfold chunk_ms in *. nia.
Qed.

(** For a whole number [d] of seconds the count is [ceil(d / 30)]. *)
Lemma num_chunks_seconds (d : N) : num_chunks (1000 * d) = (d + 29) / 30.
Proof.
  destruct (num_chunks_bounds (1000 * d)) as [H1 H2].
  pose proof (N.div_mod' (d + 29) 30) as Hdm.
  pose proof (N.mod_lt (d + 29) 30 ltac:(discriminate)) as Hlt.
  revert Hdm Hlt H1 H2. unfold chunk_ms.
  generalize ((d + 29) / 30) ((d + 29) mod 30) (num_chunks (1000 * d)).
  intros q r n Hdm Hlt H1 H2. nia.
Qed.

Lemma length_range (n : N) : List.length (range n) = N.to_nat n.
Proof. unfold range. now rewrite length_map, length_seq. Qed.

Lemma nth_error_range (n : N) (i : nat) :
  nth_error (range n) i
  = if (i <? N.to_nat n)%nat then Some (N.of_nat i) else None.
Proof.
  unfold range. rewrite nth_error_map.
  destruct (Nat.ltb_spec i (N.to_nat n)) as [Hlt|Hge].
  - rewrite nth_error_nth' with (d := 0%nat) by now rewrite length_seq.
    rewrite seq_nth by exact Hlt. reflexivity.
  - assert (H : nth_error (seq 0 (N.to_nat n)) i = None)
      by (apply nth_error_None; now rewrite length_seq).
    now rewrite H.
Qed.

Lemma in_range (n i : N) : In i (range n) <-> i < n.
Proof.
  unfold range. rewrite in_map_iff. split.
  - intros (k & <- & Hk). apply in_seq in Hk. lia.
  - intros H. exists (N.to_nat i). split; [apply N2Nat.id|].
    apply in_seq. lia.
Qed.

Lemma truncation_notice_text :
  truncation_notice = " [Note: Transcript truncated - first 300 seconds only]"%string.
Proof. reflexivity. Qed.

Context {P : Pydub} (w : World P).

Lemma chunk_loop_cons (audio : AudioSegment P) (i : N) (rest : list N)
  (texts : list string) :
  chunk_loop w audio (len P audio) (i :: rest) texts
  = match window_result w audio i with
    | Ok part => chunk_loop w audio (len P audio) rest (texts ++ [part])
    | Raise e =>
        match exn_cls e with
        | RequestError => Ok (inl (request_failed e))
        | UnknownValueError =>
            chunk_loop w audio (len P audio) rest (texts ++ [unintelligible])
        | _ => Raise e
        end
    end.
Proof.
  unfold window_result. simpl.
  destruct (window (len P audio) i) as [start stop]. reflexivity.
Qed.

(** When every window yields a text, the loop runs through all of
    them and gathers their texts in order. *)
Lemma chunk_loop_all_texts (audio : AudioSegment P) (idx : list N) :
  forall texts,
    (forall i, In i idx -> text_of (window_result w audio i) <> None) ->
    exists more,
      map (fun i => text_of (window_result w audio i)) idx = map Some more
      /\ chunk_loop w audio (len P audio) idx texts = Ok (inr (texts ++ more)%list).
Proof.
  induction idx as [|i rest IH]; intros texts Hall.
  - exists []. split; [reflexivity|]. simpl. now rewrite app_nil_r.
  - rewrite chunk_loop_cons.
    pose proof (Hall i (or_introl eq_refl)) as Hi.
    assert (Hrest : forall j, In j rest ->
                      text_of (window_result w audio j) <> None)
      by (intros j Hj; apply Hall; now right).
    destruct (window_result w audio i) as [part|e] eqn:Hr.
    + destruct (IH (texts ++ [part])%list Hrest) as (more & Hmap & Hloop).
      exists (part :: more). split.
      * simpl. rewrite Hr. simpl. now rewrite Hmap.
      * rewrite Hloop. now rewrite <- app_assoc.
    + unfold text_of in Hi.
      destruct (exn_cls e) eqn:Hc; try congruence.
      destruct (IH (texts ++ [unintelligible])%list Hrest)
        as (more & Hmap & Hloop).
      exists (unintelligible :: more). split.
      * simpl. rewrite Hr. simpl. rewrite Hc. now rewrite Hmap.
      * rewrite Hloop. now rewrite <- app_assoc.
Qed.


End ChunkFacts.

(** C2.  For a normalized buffer of [total_len] milliseconds,
    [transcribe_audio] goes through [ceil(total_len / 30000)] windows,
    at most 10; window [i] starts at [30000 * i] and is 30 seconds
    long except the last window of the buffer, which ends with the
    buffer and may be shorter; when every window yields a text, the
    returned transcript is the texts joined by spaces, followed by the
    notice naming 300 seconds exactly when there are more than 10
    windows. *)
Theorem transcribe_chunks_windows (P : Transcribe.Pydub)
  (w : Transcribe.World P) (audio : Transcribe.AudioSegment P) :
  (forall i,
      In i (Py.range (N.min (Transcribe.num_chunks (Transcribe.len P audio))
                            Transcribe.max_chunks)) ->
      Transcribe.text_of (Transcribe.window_result w audio i) <> None) ->
  let total_len := Transcribe.len P audio in
  let n := Transcribe.num_chunks total_len in
  ((total_len <= 30000 * n)%N
   /\ forall k, (total_len <= 30000 * k)%N -> (n <= k)%N)
  /\ (forall d, total_len = (1000 * d)%N -> n = ((d + 29) / 30)%N)
  /\ List.length (Transcribe.windows total_len) = N.to_nat (N.min n 10)
  /\ (forall i start stop,
        nth_error (Transcribe.windows total_len) i = Some (start, stop) ->
        (start = 30000 * N.of_nat i
         /\ (N.of_nat i + 1 < n -> stop = start + 30000)
         /\ (N.of_nat i + 1 = n ->
             stop = total_len /\ start < stop <= start + 30000))%N)
  /\ exists texts,
       map (fun i => Transcribe.text_of (Transcribe.window_result w audio i))
           (Py.range (N.min n 10)) = map Some texts
       /\ Transcribe.transcribe_chunks w audio
          = Py.Ok (if (10 <? n)%N
                   then PyStr.join " " texts
                        ++ " [Note: Transcript truncated - first 300 seconds only]"
                   else PyStr.join " " texts).
Proof.
  intros Hall total_len n.
  destruct (num_chunks_ceiling total_len) as [Hcov Hleast].
  destruct (num_chunks_bounds total_len) as [_ Hup].
  fold n in Hcov, Hleast, Hup. unfold Transcribe.chunk_ms in *.
  split; [split; assumption|].
  split.
  { intros d Hd. unfold n. rewrite Hd. apply num_chunks_seconds. }
  split.
  { unfold Transcribe.windows. rewrite length_map, length_range. reflexivity. }
  split.
  { intros i start stop Hnth.
    unfold Transcribe.windows in Hnth.
    rewrite nth_error_map, nth_error_range in Hnth.
    destruct (Nat.ltb_spec i (N.to_nat (N.min (Transcribe.num_chunks total_len)
                                              Transcribe.max_chunks)))
      as [Hlt|Hge]; [|discriminate].
    fold n in Hlt. unfold Transcribe.max_chunks in Hlt.
    simpl in Hnth. unfold Transcribe.window, Transcribe.chunk_ms in Hnth.
    injection Hnth as <- <-.
    split; [lia|]. split; intros Hi; lia. }
  destruct (chunk_loop_all_texts w audio _ [] Hall) as (texts & Hmap & Hloop).
  exists texts. split; [exact Hmap|].
  unfold Transcribe.transcribe_chunks. fold total_len. fold n.
  fold total_len in Hloop. fold n in Hloop.
  rewrite Hloop. simpl app. reflexivity.
Qed.

(** A 45-second buffer: two windows, the second 15 seconds long, and
    no notice. *)
Lemma transcribe_chunks_windows_witness :
  (forall i,
      In i (Py.range (N.min (Transcribe.num_chunks 45000)
                            Transcribe.max_chunks)) ->
      Transcribe.text_of
        (Transcribe.window_result
           (Demo.world (Demo.canonical 45000) Demo.recognize_mixed)
           (Demo.canonical 45000) i) <> None)
  /\ Transcribe.windows 45000 = [(0, 30000); (30000, 45000)]%N
  /\ Transcribe.transcribe_chunks
       (Demo.world (Demo.canonical 45000) Demo.recognize_mixed)
       (Demo.canonical 45000)
     = Py.Ok "hello world [Unintelligible]".
Proof.
  assert (Hall : forall i,
             In i (Py.range (N.min (Transcribe.num_chunks 45000)
                                   Transcribe.max_chunks)) ->
             Transcribe.text_of
               (Transcribe.window_result
                  (Demo.world (Demo.canonical 45000) Demo.recognize_mixed)
                  (Demo.canonical 45000) i) <> None).
  { intros i Hi. vm_compute in Hi.
    destruct Hi as [<-|[<-|[]]]; vm_compute; discriminate. }
  split; [exact Hall|]. split; [reflexivity|].
  destruct (transcribe_chunks_windows Demo.pydub
              (Demo.world (Demo.canonical 45000) Demo.recognize_mixed)
              (Demo.canonical 45000) Hall)
    as (_ & _ & _ & _ & texts & Hmap & Hrun).
  vm_compute. reflexivity.
Defined.

(** The extension [transcribe_audio] derives from the upload's name
    (lines 37-38). *)
Lemma transcribe_audio_unfold (P : Transcribe.Pydub) (w : Transcribe.World P)
  (up : Transcribe.upload) (s : Py.fs) :
  Transcribe.transcribe_audio w up s
  = let file_ext :=
      PyStr.lower (PyStr.last_item (PyStr.split "."
        match Transcribe.up_name up with Some n => n | None => "audio.wav" end)) in
    match Py.bind (Transcribe.save_upload w file_ext)
            (fun temp_path =>
               Py.try_finally (Transcribe.transcribe_body w file_ext temp_path)
                              (Transcribe.unlink_quietly w temp_path)) s with
    | (Py.Ok text, s') => (text, s')
    | (Py.Raise e, s') => (Transcribe.outer_handler e, s')
    end.
Proof. reflexivity. Qed.

(** [try: os.unlink(path)  except: pass] never raises. *)
Lemma unlink_quietly_ok (P : Transcribe.Pydub) (w : Transcribe.World P)
  (path : string) (s : Py.fs) :
  exists s', Transcribe.unlink_quietly w path s = (Py.Ok tt, s').
Proof.
  unfold Transcribe.unlink_quietly, Py.try_except, Transcribe.unlink, Py.ret.
  destruct (Py.file_exists path s); [|eauto].
  destruct (Transcribe.w_unlink w path) as [[]|e]; eauto.
Qed.



(** A 100-second recording: window 0 is recognized, window 1 is not
    understood, the request for window 2 fails. *)
Example request_failure_drops_partial_transcript :
  Transcribe.transcribe_audio
    (Demo.world (Demo.canonical 100000) Demo.recognize_mixed)
    {| Transcribe.up_name := Some "lecture.wav" |} []
  = ("❌ recognition request failed: connection failed", []).
Proof. vm_compute. reflexivity. Qed.

Example not_understood_is_marked :
  Transcribe.transcribe_audio
    (Demo.world (Demo.canonical 45000) Demo.recognize_mixed)
    {| Transcribe.up_name := Some "lecture.wav" |} []
  = ("hello world [Unintelligible]", []).
Proof. vm_compute. reflexivity. Qed.

Example eleven_windows_truncated :
  fst (Transcribe.transcribe_audio
         (Demo.world (Demo.canonical 301000) Demo.recognize_all)
         {| Transcribe.up_name := Some "lecture.mp3" |} [])
  = "word word word word word word word word word word [Note: Transcript truncated - first 300 seconds only]".
Proof. vm_compute. reflexivity. Qed.

(** ** Temporary files *)

Lemma file_exists_remove (p : string) (s : Py.fs) :
  Py.file_exists p (Py.remove_file p s) = false.
Proof.
  unfold Py.file_exists, PyStr.mem, Py.remove_file.
  induction s as [|q s IH]; simpl; [reflexivity|].
  destruct (String.eqb_spec q p) as [->|Hne]; simpl; [exact IH|].
  rewrite IH, orb_false_r. apply String.eqb_neq. congruence.
Qed.

(** Where the system lets [os.unlink] succeed, the file is gone after
    [try: os.unlink(path)  except: pass]. *)
Lemma unlink_quietly_removes (P : Transcribe.Pydub) (w : Transcribe.World P)
  (path : string) (s : Py.fs) :
  Transcribe.w_unlink w path = Py.Ok tt ->
  Py.file_exists path (snd (Transcribe.unlink_quietly w path s)) = false.
Proof.
  intros Hok.
  unfold Transcribe.unlink_quietly, Py.try_except, Transcribe.unlink, Py.ret.
  destruct (Py.file_exists path s) eqn:Hex; simpl.
  - rewrite Hok. simpl. apply file_exists_remove.
  - exact Hex.
Qed.

(** X4.  The saved upload is removed at the end of the call on every
    path through the inner [try], the error returns included, as long
    as the upload was saved and the system lets the file be unlinked. *)
Lemma upload_temp_file_removed (P : Transcribe.Pydub) (w : Transcribe.World P)
  (up : Transcribe.upload) (stem : string) (s : Py.fs) :
  let file_ext :=
    PyStr.lower (PyStr.last_item (PyStr.split "."
      match Transcribe.up_name up with Some n => n | None => "audio.wav" end)) in
  Transcribe.w_tempfile w = Py.Ok stem ->
  Transcribe.w_write_upload w = Py.Ok tt ->
  Transcribe.w_unlink w (stem ++ "." ++ file_ext) = Py.Ok tt ->
  Py.file_exists (stem ++ "." ++ file_ext)
    (snd (Transcribe.transcribe_audio w up s)) = false.
Proof.
  intros file_ext Htmp Hwrite Hunlink.
  rewrite transcribe_audio_unfold. cbn zeta. fold file_ext.
  unfold Py.bind at 1, Transcribe.save_upload, Py.bind, Py.lift, Py.ret.
  rewrite Htmp, Hwrite.
  unfold Py.try_finally.
  destruct (Transcribe.transcribe_body w file_ext (stem ++ "." ++ file_ext)
              (Py.create_file (stem ++ "." ++ file_ext) s)) as [r s1].
  pose proof (unlink_quietly_removes P w _ s1 Hunlink) as Hgone.
  destruct (unlink_quietly_ok P w (stem ++ "." ++ file_ext) s1) as [s2 Hs2].
  rewrite Hs2 in *. simpl in Hgone.
  destruct r; exact Hgone.
Qed.

(** C7.  A video upload whose extracted WAV cannot be loaded: the call
    returns the extraction error, the saved upload is removed, and
    the extracted WAV is still there at the end of the call. *)
Theorem extracted_wav_left_behind :
  Transcribe.transcribe_audio
    (Demo.world_wav_unreadable (Demo.canonical 45000) Demo.recognize_all)
    {| Transcribe.up_name := Some "lecture.mp4" |} []
  = ("❌ Cannot extract audio from MP4: Decoding failed",
     ["/tmp/tmpab12cd_audio.wav"]).
Proof. vm_compute. reflexivity. Qed.

(** The same upload when the WAV loads: both files are removed. *)
Example video_upload_cleaned_on_success :
  Transcribe.transcribe_audio
    (Demo.world (Demo.canonical 45000) Demo.recognize_all)
    {| Transcribe.up_name := Some "lecture.mp4" |} []
  = ("word word", []).
Proof. vm_compute. reflexivity. Qed.

(** ** Splitting and joining *)

Section SplitFacts.
Import PyStr.

Lemma is_space_lower_char (c : ascii) : is_space (lower_char c) = is_space c.
Proof. destruct c as [[] [] [] [] [] [] [] []]; reflexivity. Qed.

Lemma lower_append (a b : string) : lower (a ++ b) = lower a ++ lower b.
Proof. induction a as [|c a IH]; simpl; [reflexivity | now rewrite IH]. Qed.

Lemma is_empty_lower (s : string) : is_empty (lower s) = is_empty s.
Proof. destruct s; reflexivity. Qed.

(** Lower-casing commutes with splitting on whitespace. *)
Lemma split_ws_aux_lower (s : string) : forall cur,
  split_ws_aux (lower cur) (lower s) = map lower (split_ws_aux cur s).
Proof.
  induction s as [|c r IH]; intros cur; simpl.
  - rewrite is_empty_lower. destruct (is_empty cur); reflexivity.
  - rewrite is_space_lower_char, is_empty_lower.
    destruct (is_space c).
    + destruct (is_empty cur); simpl; rewrite <- (IH ""); reflexivity.
    + rewrite <- IH, lower_append. reflexivity.
Qed.

Lemma split_ws_lower (s : string) : split_ws (lower s) = map lower (split_ws s).
Proof. exact (split_ws_aux_lower s ""). Qed.

Lemma all_chars_append (p : ascii -> bool) (a b : string) :
  all_chars p (a ++ b) = all_chars p a && all_chars p b.
Proof.
  induction a as [|c a IH]; simpl; [reflexivity|].
  now rewrite IH, andb_assoc.
Qed.

Lemma is_empty_append_char (cur : string) (c : ascii) :
  is_empty (cur ++ String c "") = false.
Proof. destruct cur; reflexivity. Qed.

Lemma split_ws_aux_words (s : string) : forall cur,
  all_chars (fun c => negb (is_space c)) cur = true ->
  Forall is_word (split_ws_aux cur s).
Proof.
  induction s as [|c r IH]; intros cur Hcur; simpl.
  - destruct (is_empty cur) eqn:He; constructor; [|constructor].
    split; assumption.
  - destruct (is_space c) eqn:Hc.
    + destruct (is_empty cur) eqn:He.
      * now apply IH.
      * constructor; [split; assumption | now apply IH].
    + apply IH. rewrite all_chars_append, Hcur. simpl. now rewrite Hc.
Qed.

Lemma split_ws_words (s : string) : Forall is_word (split_ws s).
Proof. now apply split_ws_aux_words. Qed.

Lemma split_ws_aux_word (w : string) : forall cur rest,
  all_chars (fun c => negb (is_space c)) w = true ->
  split_ws_aux cur (w ++ rest) = split_ws_aux (cur ++ w) rest.
Proof.
  induction w as [|c w IH]; intros cur rest Hw; simpl.
  - now rewrite append_nil_r.
  - simpl in Hw. apply andb_true_iff in Hw as [Hc Hw].
    apply negb_true_iff in Hc. rewrite Hc.
    rewrite IH by exact Hw. rewrite append_assoc. reflexivity.
Qed.

(** Words joined by single spaces split back into the same words. *)
Lemma split_ws_join (ws : list string) :
  Forall is_word ws -> split_ws (join " " ws) = ws.
Proof.
  unfold split_ws, join.
  induction 1 as [|w ws [Hne Hw] Hws IH]; [reflexivity|].
  destruct ws as [|w' ws'].
  - simpl. rewrite <- (append_nil_r w) at 1.
    rewrite split_ws_aux_word by exact Hw. simpl. now rewrite Hne.
  - change (String.concat " " (w :: w' :: ws'))
      with (w ++ String " " (String.concat " " (w' :: ws'))).
    rewrite split_ws_aux_word by exact Hw.
    set (rest := String.concat " " (w' :: ws')) in *.
    simpl. rewrite Hne. now rewrite IH.
Qed.

Lemma split_aux_nonempty (sep : string) (s : string) : forall k cur,
  split_aux sep k cur s <> [].
Proof.
  induction s as [|c r IH]; intros k cur; cbn [split_aux]; [discriminate|].
  destruct k; [|apply IH].
  destruct (prefix sep (String c r)); [discriminate | apply IH].
Qed.

Lemma prefix_drop (a s : string) :
  prefix a s = true -> a ++ drop (String.length a) s = s.
Proof.
  revert s. induction a as [|x a IH]; intros s H; [reflexivity|].
  destruct s as [|y s]; [discriminate|]. simpl in H.
  destruct (ascii_dec x y) as [->|]; [|discriminate].
  simpl. now rewrite IH.
Qed.

(** The fragments of [s.split(sep)], joined by [sep], give [s] back. *)
Lemma join_split_aux (sep : string) (s : string) :
  sep <> "" ->
  forall k cur, join sep (split_aux sep k cur s) = cur ++ drop k s.
Proof.
  intros Hsep. unfold join.
  induction s as [|c r IH]; intros k cur.
  - simpl. destruct k; simpl; now rewrite append_nil_r.
  - destruct k as [|k].
    + cbn [split_aux].
      destruct (prefix sep (String c r)) eqn:Hp.
      * pose proof (split_aux_nonempty sep r (String.length sep - 1) "") as Hne.
        simpl String.concat.
        destruct (split_aux sep (String.length sep - 1) "" r) as [|f fs] eqn:Hs;
          [congruence|].
        rewrite <- Hs, IH. simpl append at 2.
        f_equal.
        pose proof (prefix_drop _ _ Hp) as Hd.
        destruct sep as [|x sep']; [congruence|].
        replace (String.length (String x sep') - 1) with (String.length sep')
          by (simpl; lia).
        cbn [String.length drop] in Hd. exact Hd.
      * rewrite IH. rewrite append_assoc. reflexivity.
    + simpl. apply IH.
Qed.

Lemma join_split (sep s : string) :
  sep <> "" -> join sep (split sep s) = s.
Proof. intros H. unfold split. now rewrite join_split_aux. Qed.

End SplitFacts.

(** ** [generate_ai_notes] *)

Section NotesFacts.
Import Py Notes.

Lemma insert_desc_perm (x : string) (l : list string) :
  Permutation (x :: l) (insert_desc x l).
Proof.
  induction l as [|y r IH]; simpl; [reflexivity|].
  destruct (String.length x <? String.length y)%nat; [|reflexivity].
  rewrite perm_swap. now constructor.
Qed.

(** Sorting keeps the words. *)
Lemma sorted_len_desc_perm (l : list string) :
  Permutation l (sorted_len_desc l).
Proof.
  induction l as [|x l IH]; simpl; [constructor|].
  rewrite <- insert_desc_perm. now constructor.
Qed.

Lemma insert_desc_sorted (x : string) (l : list string) :
  Sorted (fun a b => String.length b <= String.length a) l ->
  Sorted (fun a b => String.length b <= String.length a) (insert_desc x l).
Proof.
  induction 1 as [|y r Hr IH Hhd]; simpl.
  - repeat constructor.
  - destruct (Nat.ltb_spec (String.length x) (String.length y)) as [Hlt|Hge].
    + constructor; [exact IH|].
      destruct r as [|z r]; simpl.
      * repeat constructor. lia.
      * inversion Hhd as [|? ? Hzy]; subst.
        destruct (String.length x <? String.length z)%nat;
          constructor; [exact Hzy | lia].
    + repeat constructor; assumption.
Qed.

(** Sorting puts the words in order of non-increasing length. *)
Lemma sorted_len_desc_sorted (l : list string) :
  Sorted (fun a b => String.length b <= String.length a) (sorted_len_desc l).
Proof.
  induction l as [|x l IH]; simpl; [constructor|].
  now apply insert_desc_sorted.
Qed.

Lemma length_sorted_len_desc (l : list string) :
  List.length (sorted_len_desc l) = List.length l.
Proof. symmetry. apply Permutation_length, sorted_len_desc_perm. Qed.

(** A set built from one word iterates over that word alone. *)
Lemma set_iter_singleton (f : list string -> list string) (x : string) :
  set_iter_ok f -> f [x] = [x].
Proof.
  intros Hok. destruct (Hok [x]) as [Hnd Hin].
  destruct (f [x]) as [|a l].
  - exfalso. apply (proj2 (Hin x)). now left.
  - assert (Ha : a = x).
    { destruct (proj1 (Hin a) (or_introl eq_refl)) as [H|[]]. now symmetry. }
    subst a. destruct l as [|b l]; [reflexivity|].
    exfalso.
    assert (Hb : b = x).
    { destruct (proj1 (Hin b) (or_intror (or_introl eq_refl))) as [H|[]].
      now symmetry. }
    subst b. inversion Hnd as [|? ? Hnotin _]. apply Hnotin. now left.
Qed.

Lemma insertion_order_ok : set_iter_ok insertion_order.
Proof.
  intros l. unfold insertion_order. split.
  - apply NoDup_rev, NoDup_nodup.
  - intros x. rewrite <- in_rev, nodup_In, <- in_rev. reflexivity.
Qed.

(** The quiz template is filled exactly when there are at least two
    important words; with fewer, [important_words[0]] or
    [important_words[1]] is out of range. *)
Lemma quiz_questions_defined (iw : list string) :
  (2 <= List.length iw -> exists quiz, quiz_questions iw = Ok quiz)
  /\ (List.length iw < 2 ->
      quiz_questions iw = Raise (mk_exn IndexError "list index out of range")).
Proof.
  split; intros H.
  - destruct iw as [|w0 [|w1 rest]]; simpl in H; try lia.
    unfold quiz_questions, quiz_options. simpl.
    destruct rest as [|w2 [|w3 rest]]; simpl; eauto.
  - destruct iw as [|w0 [|w1 rest]]; simpl in H; try lia; reflexivity.
Qed.

(** With two or three important words the missing ones are replaced
    by the labels [Topic] and [Discussion]. *)
Lemma quiz_options_fallback (w0 w1 w2 : string) :
  quiz_options [w0; w1]
  = Ok (PyStr.capitalize w0, PyStr.capitalize w1, "Topic", "Discussion")
  /\ quiz_options [w0; w1; w2]
     = Ok (PyStr.capitalize w0, PyStr.capitalize w1, PyStr.capitalize w2,
           "Discussion").
Proof. split; reflexivity. Qed.

Lemma Forall_firstn_keeps {A : Type} (Q : A -> Prop) (n : nat) (l : list A) :
  Forall Q l -> Forall Q (firstn n l).
Proof.
  intros H. revert n. induction H as [|x l Hx Hl IH]; intros [|n]; simpl;
    constructor; auto.
Qed.

Lemma in_firstn_in {A : Type} (n : nat) (l : list A) (x : A) :
  In x (firstn n l) -> In x l.
Proof.
  intros H. rewrite <- (firstn_skipn n l). apply in_or_app. now left.
Qed.

(** The words line 168 tokenizes are the lower-cased first 900 words
    of the transcript passed in. *)
Lemma notes_transcript_words (transcript : string) :
  PyStr.split_ws (PyStr.lower (notes_transcript transcript))
  = map PyStr.lower (firstn 900 (PyStr.split_ws transcript)).
Proof.
  rewrite split_ws_lower. f_equal.
  unfold notes_transcript.
  destruct (Nat.ltb_spec 900 (List.length (PyStr.split_ws transcript)))
    as [Hlong|Hshort].
  - apply split_ws_join. apply Forall_firstn_keeps, split_ws_words.
  - now rewrite firstn_all2.
Qed.

End NotesFacts.

(** C1.  A transcript whose only word is the marker of a window that
    was not understood: there is one distinct word, the template
    reads [important_words[1]], and [generate_ai_notes] raises
    [IndexError] instead of returning notes with three questions. *)
Theorem quiz_fails_on_single_word (env : Notes.Env) :
  Notes.set_iter_ok (Notes.set_iter env) ->
  Notes.generate_ai_notes env "[Unintelligible]"
  = Py.Raise (Py.mk_exn Py.IndexError "list index out of range").
Proof.
  intros Hok.
  unfold Notes.generate_ai_notes, Notes.important_words.
  change (Notes.notes_transcript "[Unintelligible]") with "[Unintelligible]".
  change (PyStr.split_ws (PyStr.lower "[Unintelligible]"))
    with ["[unintelligible]"].
  rewrite (set_iter_singleton _ _ Hok). reflexivity.
Qed.

Lemma quiz_fails_on_single_word_witness :
  Notes.set_iter_ok (Notes.set_iter Demo.env)
  /\ Notes.generate_ai_notes Demo.env "[Unintelligible]"
     = Py.Raise (Py.mk_exn Py.IndexError "list index out of range").
Proof.
  split; [exact insertion_order_ok|].
  exact (quiz_fails_on_single_word Demo.env insertion_order_ok).
Defined.

(** With two distinct words the notes are produced and the second
    question shows the labels [Topic] and [Discussion]. *)
Example quiz_two_words :
  Notes.quiz_options (Notes.notes_important_words Demo.env "hello world")
  = Py.Ok ("Hello", "World", "Topic", "Discussion").
Proof. reflexivity. Qed.

(** The quiz words of a 901-word transcript are not those of the
    whole transcript: the long last word is missing. *)
Lemma quiz_words_miss_word_901 :
  Notes.notes_important_words Demo.env Demo.long_transcript
  <> Notes.full_transcript_words Demo.env Demo.long_transcript.
Proof. vm_compute. discriminate. Qed.

(** Five short fragments come first: no bullet is produced, although
    a later fragment is longer than 20 characters. *)
Lemma late_long_fragment_is_dropped :
  Notes.notes_key_points Demo.late_sentence
  <> Notes.first_five_long Demo.late_sentence.
Proof. vm_compute. discriminate. Qed.

(** The transcript of the specification's example: only the second
    fragment is long enough. *)
Example key_points_example :
  Notes.notes_key_points "A. B is longer than twenty chars here. C."
  = ["B is longer than twenty chars here."].
Proof. reflexivity. Qed.

(** ** The YouTube flow *)

Section YouTubeFacts.
Import YouTube.
Context (api : Api).

(** Tracks that raise or fetch empty data do not end the loop; the
    first track with data does, whatever [data] held before. *)
Lemma try_tracks_first_data (pre : list (track api)) (t : track api)
  (d : list string) (post : list (track api)) :
  (forall t', In t' pre ->
              fetch_track api t' = inr [] \/ exists e', fetch_track api t' = inl e') ->
  fetch_track api t = inr d -> d <> [] ->
  forall data, try_tracks api (pre ++ t :: post) data = Some d.
Proof.
  intros Hpre Ht Hd.
  induction pre as [|t0 pre IH]; intros data; simpl.
  - rewrite Ht. destruct d; [congruence | reflexivity].
  - assert (Hpre' : forall t', In t' pre ->
              fetch_track api t' = inr [] \/ exists e', fetch_track api t' = inl e')
      by (intros t' Ht'; apply Hpre; now right).
    destruct (Hpre t0 (or_introl eq_refl)) as [H0|[e' H0]]; rewrite H0; simpl;
      now apply IH.
Qed.

(** When every track raises, [data] is left as it was. *)
Lemma try_tracks_all_raise (ts : list (track api)) :
  (forall t, In t ts -> exists e', fetch_track api t = inl e') ->
  forall data, try_tracks api ts data = data.
Proof.
  induction ts as [|t ts IH]; intros Hall data; simpl; [reflexivity|].
  destruct (Hall t (or_introl eq_refl)) as [e' He']. rewrite He'.
  apply IH. intros t' Ht'. apply Hall. now right.
Qed.

Lemma extract_video_id_nonempty (url video_id : string) :
  VideoId.extract_video_id url = Some video_id -> PyStr.is_empty url = false.
Proof. destruct url; [discriminate | reflexivity]. Qed.

End YouTubeFacts.

(** The first track fetches without raising but is empty: the flow
    goes on and shows the text of the second track. *)
Lemma empty_track_is_skipped :
  YouTube.youtube_flow
    (Demo.api (inl YouTube.NoTranscriptFound) Demo.tracks_first_empty)
    Demo.watch_url
  <> YouTube.first_fetched_outcome
       (Demo.api (inl YouTube.NoTranscriptFound) Demo.tracks_first_empty)
       YouTube.NoTranscriptFound Demo.tracks_first_empty.
Proof. vm_compute. discriminate. Qed.

(** C8 (amended).  When the default fetch raises one of the three
    classes of line 263 and the tracks can be listed, the flow shows
    the joined text of the first track whose fetch succeeds with
    data that is not empty, the tracks before it having raised or
    fetched nothing; when no listed track fetches successfully, the
    exception of the default fetch is raised again and shown by the
    handlers of lines 281-288. *)
Theorem fallback_first_nonempty_track (api : YouTube.Api)
  (url video_id : string) (e : YouTube.exn api)
  (ts : list (YouTube.track api)) :
  VideoId.extract_video_id url = Some video_id ->
  YouTube.fetch api video_id = inl e ->
  YouTube.caught_by_fallback api e = true ->
  YouTube.list_tracks api video_id = inr ts ->
  (forall pre t d post,
      ts = (pre ++ t :: post)%list ->
      (forall t', In t' pre ->
                  YouTube.fetch_track api t' = inr []
                  \/ exists e', YouTube.fetch_track api t' = inl e') ->
      YouTube.fetch_track api t = inr d -> d <> [] ->
      YouTube.youtube_flow api url = YouTube.Retrieved (PyStr.join " " d))
  /\ ((forall t, In t ts -> exists e', YouTube.fetch_track api t = inl e') ->
      YouTube.youtube_flow api url = YouTube.Reported (YouTube.report api e)).
Proof.
  intros Hid Hfetch Hcaught Hlist.
  unfold YouTube.youtube_flow, YouTube.fetch_with_fallback.
  rewrite (extract_video_id_nonempty _ _ Hid), Hid, Hfetch, Hcaught, Hlist.
  split.
  - intros pre t d post -> Hpre Ht Hd.
    now rewrite (try_tracks_first_data api pre t d post Hpre Ht Hd).
  - intros Hall. now rewrite (try_tracks_all_raise api ts Hall).
Qed.

Lemma fallback_first_nonempty_track_witness :
  VideoId.extract_video_id Demo.watch_url = Some "ABCDEFGHIJK"
  /\ YouTube.caught_by_fallback
       (Demo.api (inl YouTube.NoTranscriptFound) Demo.tracks_third_good)
       YouTube.NoTranscriptFound = true
  /\ YouTube.youtube_flow
       (Demo.api (inl YouTube.NoTranscriptFound) Demo.tracks_third_good)
       Demo.watch_url
     = YouTube.Retrieved "hi there".
Proof.
  split; [reflexivity|]. split; [reflexivity|].
  refine (proj1 (fallback_first_nonempty_track
                   (Demo.api (inl YouTube.NoTranscriptFound)
                             Demo.tracks_third_good)
                   Demo.watch_url "ABCDEFGHIJK" YouTube.NoTranscriptFound
                   Demo.tracks_third_good eq_refl eq_refl eq_refl eq_refl)
                [inl YouTube.VideoUnavailable; inr []]
                (inr ["hi"; "there"]) ["hi"; "there"] [] eq_refl _ eq_refl _).
  - intros t' [<-|[<-|[]]]; [right; now exists YouTube.VideoUnavailable | now left].
  - discriminate.
Defined.

(** Captions disabled and no track to fetch: the flow shows the
    message of the [TranscriptsDisabled] handler. *)
Example captions_disabled_reported :
  YouTube.youtube_flow (Demo.api (inl YouTube.TranscriptsDisabled) [])
                       Demo.watch_url
  = YouTube.Reported "Transcripts are disabled for this video.".
Proof. reflexivity. Qed.

(** Every successful fetch is empty: nothing is raised again and the
    flow shows an empty transcript. *)
Example only_empty_tracks :
  YouTube.youtube_flow
    (Demo.api (inl YouTube.NoTranscriptFound)
              [inr []; inl YouTube.VideoUnavailable])
    Demo.watch_url
  = YouTube.Retrieved "".
Proof. reflexivity. Qed.

(** ** Normalization *)

(** [normalize] is the two pydub calls of line 96; what they do to a
    buffer is pydub's.  If each call hands back a buffer it has
    nothing to change in, a mono 16 kHz buffer goes through
    unchanged. *)
Lemma normalize_unchanged_if_calls_are (P : Transcribe.Pydub)
  (audio : Transcribe.AudioSegment P) :
  (forall r a, Transcribe.frame_rate P a = r ->
               Transcribe.set_frame_rate P r a = a) ->
  (forall c a, Transcribe.channels P a = c ->
               Transcribe.set_channels P c a = a) ->
  Transcribe.frame_rate P audio = 16000%N ->
  Transcribe.channels P audio = 1%N ->
  Transcribe.normalize audio = audio.
Proof.
  intros Hrate Hchan Hr Hc. unfold Transcribe.normalize.
  rewrite (Hrate _ _ Hr). now apply Hchan.
Qed.

(* ===================================================================== *)
(** * Further properties of the code *)
(* ===================================================================== *)

(** ** The windows of the chunk loop *)

Lemma nth_error_windows (total_len : N) (i : nat) (start stop : N) :
  nth_error (Transcribe.windows total_len) i = Some (start, stop) <->
  (N.of_nat i < N.min (Transcribe.num_chunks total_len) 10
   /\ start = 30000 * N.of_nat i
   /\ stop = N.min (start + 30000) total_len)%N.
Proof.
  unfold Transcribe.windows. rewrite nth_error_map, nth_error_range.
  unfold Transcribe.max_chunks.
  destruct (Nat.ltb_spec i
              (N.to_nat (N.min (Transcribe.num_chunks total_len) 10)))
    as [Hlt|Hge]; cbn [option_map].
  - unfold Transcribe.window, Transcribe.chunk_ms.
    generalize dependent (Transcribe.num_chunks total_len). intros n Hlt.
    split.
    + intros [= <- <-]. repeat split; lia.
    + intros (_ & -> & ->).
      replace (N.of_nat i * 30000)%N with (30000 * N.of_nat i)%N by lia.
      reflexivity.
  - generalize dependent (Transcribe.num_chunks total_len). intros n Hge.
    split; [discriminate | lia].
Qed.

(** X1.  The windows of lines 104-107 cut the first
    [min(total_len, 300000)] milliseconds into consecutive pieces:
    none is empty, each starts where the one before stops, the first
    starts at 0, and every millisecond before the end of the
    processed part lies in one of them. *)
Theorem windows_tile (total_len : N) :
  (forall i start stop,
      nth_error (Transcribe.windows total_len) i = Some (start, stop) ->
      (start < stop <= N.min total_len 300000)%N)
  /\ (forall i a b c d,
         nth_error (Transcribe.windows total_len) i = Some (a, b) ->
         nth_error (Transcribe.windows total_len) (S i) = Some (c, d) ->
         b = c)
  /\ (forall start stop,
         nth_error (Transcribe.windows total_len) 0 = Some (start, stop) ->
         start = 0%N)
  /\ (forall t, (t < N.min total_len 300000)%N ->
         exists i start stop,
           nth_error (Transcribe.windows total_len) i = Some (start, stop)
           /\ (start <= t < stop)%N).
Proof.
  destruct (num_chunks_bounds total_len) as [Hcov Hup].
  unfold Transcribe.chunk_ms in *.
  set (n := Transcribe.num_chunks total_len) in *.
  split; [|split; [|split]].
  - intros i start stop H. apply nth_error_windows in H as (Hi & -> & ->).
    fold n in Hi. lia.
  - intros i a b c d H1 H2.
    apply nth_error_windows in H1 as (Hi & -> & ->).
    apply nth_error_windows in H2 as (Hi' & -> & _).
    fold n in Hi, Hi'. lia.
  - intros start stop H. apply nth_error_windows in H as (_ & -> & _).
    reflexivity.
  - intros t Ht.
    pose proof (N.div_mod' t 30000) as Hdm.
    pose proof (N.mod_lt t 30000 ltac:(discriminate)) as Hlt.
    revert Hdm Hlt. generalize (t / 30000)%N (t mod 30000)%N. intros q r Hdm Hlt.
    exists (N.to_nat q), (30000 * q)%N, (N.min (30000 * q + 30000) total_len).
    split.
    + apply nth_error_windows. rewrite N2Nat.id. fold n.
      repeat split; lia.
    + lia.
Qed.

(** ** Exceptions of the chunk loop *)

Lemma chunk_loop_raises (P : Transcribe.Pydub) (w : Transcribe.World P)
  (audio : Transcribe.AudioSegment P) (idx : list N) :
  forall texts e,
    Transcribe.chunk_loop w audio (Transcribe.len P audio) idx texts
    = Py.Raise e ->
    Py.exn_cls e <> Py.RequestError
    /\ Py.exn_cls e <> Py.UnknownValueError
    /\ exists i, In i idx /\ Transcribe.window_result w audio i = Py.Raise e.
Proof.
  induction idx as [|i rest IH]; intros texts e H; [discriminate|].
  rewrite chunk_loop_cons in H.
  destruct (Transcribe.window_result w audio i) as [part|e'] eqn:Hr.
  - destruct (IH _ _ H) as (H1 & H2 & j & Hj & Hrj).
    repeat split; try assumption. exists j. split; [now right | assumption].
  - destruct (Py.exn_cls e') eqn:Hc; try discriminate.
    + destruct (IH _ _ H) as (H1 & H2 & j & Hj & Hrj).
      repeat split; try assumption. exists j. split; [now right | assumption].
    + injection H as <-. rewrite Hc.
      repeat split; try discriminate. exists i. split; [now left | assumption].
    + injection H as <-. rewrite Hc.
      repeat split; try discriminate. exists i. split; [now left | assumption].
    + injection H as <-. rewrite Hc.
      repeat split; try discriminate. exists i. split; [now left | assumption].
Qed.

(** X2.  Neither a [RequestError] nor an [UnknownValueError] ever
    leaves the chunking part of [transcribe_audio]: an exception it
    raises is one a window raised, of another class. *)
Theorem transcribe_chunks_raises_only_other (P : Transcribe.Pydub)
  (w : Transcribe.World P) (audio : Transcribe.AudioSegment P) (e : Py.exn) :
  Transcribe.transcribe_chunks w audio = Py.Raise e ->
  Py.exn_cls e <> Py.RequestError
  /\ Py.exn_cls e <> Py.UnknownValueError
  /\ exists i,
       (i < N.min (Transcribe.num_chunks (Transcribe.len P audio)) 10)%N
       /\ Transcribe.window_result w audio i = Py.Raise e.
Proof.
  unfold Transcribe.transcribe_chunks. intros H.
  destruct (Transcribe.chunk_loop w audio (Transcribe.len P audio)
              (Py.range (N.min (Transcribe.num_chunks (Transcribe.len P audio))
                               Transcribe.max_chunks)) [])
    as [[early|texts]|e'] eqn:Hloop; try discriminate.
  injection H as ->.
  destruct (chunk_loop_raises P w audio _ _ _ Hloop) as (H1 & H2 & i & Hi & Hr).
  repeat split; try assumption.
  exists i. split; [|assumption]. apply in_range in Hi. exact Hi.
Qed.

Lemma transcribe_chunks_raises_only_other_witness :
  Transcribe.transcribe_chunks
    (Demo.world (Demo.canonical 45000) Demo2.recognize_then_crash)
    (Demo.canonical 45000)
  = Py.Raise (Py.mk_exn Py.OtherException "broken pipe")
  /\ Py.OtherException <> Py.RequestError.
Proof.
  assert (H : Transcribe.transcribe_chunks
                (Demo.world (Demo.canonical 45000) Demo2.recognize_then_crash)
                (Demo.canonical 45000)
              = Py.Raise (Py.mk_exn Py.OtherException "broken pipe"))
    by reflexivity.
  split; [exact H|].
  exact (proj1 (transcribe_chunks_raises_only_other _ _ _ _ H)).
Defined.

(** ** What [transcribe_audio] does to the files *)

Section FileFacts.
Import Py.

Lemma file_exists_create_other (p q : string) (s : fs) :
  q <> p -> file_exists q (create_file p s) = file_exists q s.
Proof.
  intros Hne. unfold create_file.
  destruct (file_exists p s); [reflexivity|].
  unfold file_exists, PyStr.mem. simpl.
  now rewrite (proj2 (String.eqb_neq q p) Hne).
Qed.

Lemma file_exists_create_same (p : string) (s : fs) :
  file_exists p (create_file p s) = true.
Proof.
  unfold create_file. destruct (file_exists p s) eqn:H; [exact H|].
  unfold file_exists, PyStr.mem. simpl. now rewrite String.eqb_refl.
Qed.

Lemma file_exists_remove_other (p q : string) (s : fs) :
  q <> p -> file_exists q (remove_file p s) = file_exists q s.
Proof.
  intros Hne. unfold file_exists, PyStr.mem, remove_file.
  induction s as [|x s IH]; simpl; [reflexivity|].
  destruct (String.eqb_spec x p) as [->|Hxp]; simpl.
  - rewrite IH. now rewrite (proj2 (String.eqb_neq q p) Hne).
  - now rewrite IH.
Qed.

(** Removing a file brings no file into existence. *)
Lemma file_exists_remove_false (p q : string) (s : fs) :
  file_exists q s = false -> file_exists q (remove_file p s) = false.
Proof.
  destruct (String.eqb_spec q p) as [->|Hne].
  - intros _. apply file_exists_remove.
  - now rewrite file_exists_remove_other.
Qed.

Lemma touches_ret {A : Type} (paths : list string) (a : A) :
  App.touches_only paths (ret a).
Proof. intros s q _. reflexivity. Qed.

Lemma touches_lift {A : Type} (paths : list string) (r : result A) :
  App.touches_only paths (lift r).
Proof. intros s q _. reflexivity. Qed.

Lemma touches_bind {A B : Type} (paths : list string) (m : M A) (k : A -> M B) :
  App.touches_only paths m ->
  (forall a, App.touches_only paths (k a)) ->
  App.touches_only paths (bind m k).
Proof.
  intros Hm Hk s q Hq. unfold bind.
  specialize (Hm s q Hq).
  destruct (m s) as [[a|e] s1]; simpl in *.
  - rewrite <- Hm. apply Hk. exact Hq.
  - exact Hm.
Qed.

Lemma touches_try_except {A : Type} (paths : list string) (m : M A)
  (h : exn -> M A) :
  App.touches_only paths m ->
  (forall e, App.touches_only paths (h e)) ->
  App.touches_only paths (try_except m h).
Proof.
  intros Hm Hh s q Hq. unfold try_except.
  specialize (Hm s q Hq).
  destruct (m s) as [[a|e] s1]; simpl in *.
  - exact Hm.
  - rewrite <- Hm. apply Hh. exact Hq.
Qed.

Lemma touches_try_finally {A : Type} (paths : list string) (m : M A)
  (f : M unit) :
  App.touches_only paths m ->
  App.touches_only paths f ->
  App.touches_only paths (try_finally m f).
Proof.
  intros Hm Hf s q Hq. unfold try_finally.
  specialize (Hm s q Hq).
  destruct (m s) as [r s1]; simpl in *.
  specialize (Hf s1 q Hq).
  destruct (f s1) as [[u|e] s2]; simpl in *; congruence.
Qed.

Context {P : Transcribe.Pydub} (w : Transcribe.World P).

Lemma touches_unlink (paths : list string) (p : string) :
  In p paths -> App.touches_only paths (Transcribe.unlink w p).
Proof.
  intros Hp s q Hq. unfold Transcribe.unlink.
  destruct (file_exists p s); [|reflexivity].
  destruct (Transcribe.w_unlink w p); simpl; [|reflexivity].
  apply file_exists_remove_other. intros ->. now apply Hq.
Qed.

Lemma touches_unlink_quietly (paths : list string) (p : string) :
  In p paths -> App.touches_only paths (Transcribe.unlink_quietly w p).
Proof.
  intros Hp. apply touches_try_except.
  - now apply touches_unlink.
  - intros e. apply touches_ret.
Qed.

Lemma touches_write_audiofile (paths : list string) (p : string) :
  In p paths -> App.touches_only paths (Transcribe.write_audiofile w p).
Proof.
  intros Hp s q Hq. unfold Transcribe.write_audiofile.
  destruct (Transcribe.w_write_audiofile w p); simpl; [|reflexivity].
  apply file_exists_create_other. intros ->. now apply Hq.
Qed.

Lemma touches_transcribe_body (file_ext temp_path : string) :
  App.touches_only [temp_path; App.wav_path_of file_ext temp_path]
    (Transcribe.transcribe_body w file_ext temp_path).
Proof.
  unfold Transcribe.transcribe_body.
  apply touches_bind.
  - destruct (PyStr.mem (PyStr.lower file_ext) Transcribe.video_exts).
    + unfold Transcribe.extract_from_video.
      apply touches_try_except; [|intros e; apply touches_ret].
      apply touches_bind; [apply touches_lift|]. intros has_audio.
      destruct (negb has_audio); [apply touches_ret|].
      apply touches_bind;
        [apply touches_write_audiofile; right; now left|]. intros _.
      apply touches_bind; [apply touches_lift|]. intros _.
      apply touches_bind; [apply touches_lift|]. intros audio.
      apply touches_bind;
        [apply touches_unlink_quietly; right; now left|]. intros _.
      apply touches_ret.
    + unfold Transcribe.load_audio_file.
      apply touches_try_except.
      * apply touches_bind; [apply touches_lift|]. intros a. apply touches_ret.
      * intros _. apply touches_try_except; [|intros e; apply touches_ret].
        apply touches_bind; [apply touches_lift|]. intros a. apply touches_ret.
  - intros [message|audio]; [apply touches_ret | apply touches_lift].
Qed.

End FileFacts.

(** X3.  [transcribe_audio] leaves every other file alone: a path
    that is neither its temporary upload nor the WAV path derived
    from it exists after the call exactly when it existed before;
    when no temporary file could be made, the files are as before. *)
Theorem transcribe_audio_touches_own_files (P : Transcribe.Pydub)
  (w : Transcribe.World P) (up : Transcribe.upload) (s : Py.fs) :
  let file_ext :=
    App.file_ext_of
      match Transcribe.up_name up with Some n => n | None => "audio.wav" end in
  match Transcribe.w_tempfile w with
  | Py.Ok stem =>
      forall q,
        q <> stem ++ "." ++ file_ext ->
        q <> App.wav_path_of file_ext (stem ++ "." ++ file_ext) ->
        Py.file_exists q (snd (Transcribe.transcribe_audio w up s))
        = Py.file_exists q s
  | Py.Raise _ => snd (Transcribe.transcribe_audio w up s) = s
  end.
Proof.
  intros file_ext.
  rewrite transcribe_audio_unfold. cbn zeta.
  change (PyStr.lower (PyStr.last_item (PyStr.split "."
            match Transcribe.up_name up with
            | Some n => n
            | None => "audio.wav"
            end))) with file_ext.
  unfold Py.bind at 1, Transcribe.save_upload, Py.bind, Py.lift, Py.ret.
  destruct (Transcribe.w_tempfile w) as [stem|e0]; [|reflexivity].
  intros q Hq1 Hq2.
  set (temp_path := stem ++ "." ++ file_ext) in *.
  assert (Hnot : ~ In q [temp_path; App.wav_path_of file_ext temp_path]).
  { intros [H|[H|[]]]; congruence. }
  destruct (Transcribe.w_write_upload w) as [[]|e1].
  - pose proof (touches_try_finally _ _ _
                  (touches_transcribe_body w file_ext temp_path)
                  (touches_unlink_quietly w
                     [temp_path; App.wav_path_of file_ext temp_path]
                     temp_path (or_introl eq_refl))
                  (Py.create_file temp_path s) q Hnot) as Hframe.
    rewrite file_exists_create_other in Hframe by exact Hq1.
    destruct (Py.try_finally (Transcribe.transcribe_body w file_ext temp_path)
                (Transcribe.unlink_quietly w temp_path)
                (Py.create_file temp_path s)) as [[text|e] s2]; exact Hframe.
  - simpl. now apply file_exists_create_other.
Qed.

Lemma upload_temp_file_removed_witness :
  Transcribe.w_unlink
    (Demo.world (Demo.canonical 100000) Demo.recognize_mixed)
    "/tmp/tmpab12cd.wav" = Py.Ok tt
  /\ Py.file_exists "/tmp/tmpab12cd.wav"
       (snd (Transcribe.transcribe_audio
               (Demo.world (Demo.canonical 100000) Demo.recognize_mixed)
               {| Transcribe.up_name := Some "lecture.wav" |}
               ["/tmp/other.wav"])) = false.
Proof.
  split; [reflexivity|].
  exact (upload_temp_file_removed Demo.pydub
           (Demo.world (Demo.canonical 100000) Demo.recognize_mixed)
           {| Transcribe.up_name := Some "lecture.wav" |}
           "/tmp/tmpab12cd" ["/tmp/other.wav"] eq_refl eq_refl eq_refl).
Defined.

(** ** The paths through [transcribe_audio] *)

Section PathFacts.
Import Py.
Context {P : Transcribe.Pydub} (w : Transcribe.World P).

(** Once the upload is saved, the call is the body of the inner [try]
    followed by the removal of the temporary file. *)
Lemma transcribe_audio_saved (name stem : string) (s : fs) :
  Transcribe.w_tempfile w = Ok stem ->
  Transcribe.w_write_upload w = Ok tt ->
  Transcribe.transcribe_audio w {| Transcribe.up_name := Some name |} s
  = let file_ext := App.file_ext_of name in
    let temp_path := stem ++ "." ++ file_ext in
    let '(r, s2) := Transcribe.transcribe_body w file_ext temp_path
                      (create_file temp_path s) in
    (match r with Ok text => text | Raise e => Transcribe.outer_handler e end,
     snd (Transcribe.unlink_quietly w temp_path s2)).
Proof.
  intros Htmp Hwrite.
  rewrite transcribe_audio_unfold. cbn [Transcribe.up_name]. cbn zeta.
  fold (App.file_ext_of name).
  unfold bind at 1, Transcribe.save_upload, bind, lift, ret.
  rewrite Htmp, Hwrite. unfold try_finally.
  destruct (Transcribe.transcribe_body w (App.file_ext_of name)
              (stem ++ "." ++ App.file_ext_of name)
              (create_file (stem ++ "." ++ App.file_ext_of name) s))
    as [r s2].
  destruct (unlink_quietly_ok P w (stem ++ "." ++ App.file_ext_of name) s2)
    as [s3 Hs3].
  rewrite Hs3. destruct r; reflexivity.
Qed.

(** [try: os.unlink(path)  except: pass] brings no file into
    existence. *)
Lemma unlink_quietly_keeps_absent (p q : string) (s : fs) :
  file_exists q s = false ->
  file_exists q (snd (Transcribe.unlink_quietly w p s)) = false.
Proof.
  intros Hq.
  unfold Transcribe.unlink_quietly, try_except, Transcribe.unlink, ret.
  destruct (file_exists p s); [|exact Hq].
  destruct (Transcribe.w_unlink w p); simpl; [|exact Hq].
  now apply file_exists_remove_false.
Qed.

Lemma unlink_quietly_succeeds (p : string) (s : fs) :
  file_exists p s = true ->
  Transcribe.w_unlink w p = Ok tt ->
  Transcribe.unlink_quietly w p s = (Ok tt, remove_file p s).
Proof.
  intros Hex Hok.
  unfold Transcribe.unlink_quietly, try_except, Transcribe.unlink.
  now rewrite Hex, Hok.
Qed.

End PathFacts.

(** X5.  When writing the upload into the new temporary file fails,
    the call returns the message of the outer handlers and the
    temporary file is still there: the write happens before the
    [try] whose [finally] removes it. *)
Theorem failed_save_leaves_temp_file (P : Transcribe.Pydub)
  (w : Transcribe.World P) (up : Transcribe.upload) (stem : string)
  (e : Py.exn) (s : Py.fs) :
  Transcribe.w_tempfile w = Py.Ok stem ->
  Transcribe.w_write_upload w = Py.Raise e ->
  let temp_path :=
    stem ++ "."
    ++ App.file_ext_of
         match Transcribe.up_name up with Some n => n | None => "audio.wav" end in
  fst (Transcribe.transcribe_audio w up s) = Transcribe.outer_handler e
  /\ Py.file_exists temp_path (snd (Transcribe.transcribe_audio w up s)) = true
  /\ forall q, q <> temp_path ->
               Py.file_exists q (snd (Transcribe.transcribe_audio w up s))
               = Py.file_exists q s.
Proof.
  intros Htmp Hwrite temp_path.
  rewrite transcribe_audio_unfold. cbn zeta.
  unfold Py.bind at 1, Transcribe.save_upload, Py.bind, Py.lift, Py.ret.
  rewrite Htmp, Hwrite. simpl fst. simpl snd.
  split; [reflexivity|]. split.
  - apply file_exists_create_same.
  - intros q Hq. now apply file_exists_create_other.
Qed.

Lemma failed_save_leaves_temp_file_witness :
  Transcribe.transcribe_audio Demo2.world_disk_full
    {| Transcribe.up_name := Some "lecture.mp3" |} []
  = ("❌ Error: No space left on device", ["/tmp/tmpab12cd.mp3"])
  /\ Py.file_exists "/tmp/tmpab12cd.mp3"
       (snd (Transcribe.transcribe_audio Demo2.world_disk_full
               {| Transcribe.up_name := Some "lecture.mp3" |} [])) = true.
Proof.
  split; [reflexivity|].
  exact (proj1 (proj2 (failed_save_leaves_temp_file Demo.pydub
           Demo2.world_disk_full {| Transcribe.up_name := Some "lecture.mp3" |}
           "/tmp/tmpab12cd" (Py.mk_exn Py.OSError "No space left on device") []
           eq_refl eq_refl))).
Defined.

(** X6.  A video whose clip has no audio track: the call returns the
    message of line 61, nothing is written at the WAV path, and the
    saved upload is removed where the system lets it be unlinked. *)
Theorem video_without_audio_track (P : Transcribe.Pydub)
  (w : Transcribe.World P) (name stem : string) (s : Py.fs) :
  let file_ext := App.file_ext_of name in
  let temp_path := stem ++ "." ++ file_ext in
  PyStr.mem (PyStr.lower file_ext) Transcribe.video_exts = true ->
  Transcribe.w_tempfile w = Py.Ok stem ->
  Transcribe.w_write_upload w = Py.Ok tt ->
  Transcribe.w_open_video w temp_path = Py.Ok false ->
  Transcribe.w_unlink w temp_path = Py.Ok tt ->
  Transcribe.transcribe_audio w {| Transcribe.up_name := Some name |} s
  = ("❌ No audio track found in video file",
     Py.remove_file temp_path (Py.create_file temp_path s)).
Proof.
  intros file_ext temp_path Hext Htmp Hwrite Hopen Hunlink.
  rewrite (transcribe_audio_saved w name stem s Htmp Hwrite). cbn zeta.
  fold file_ext. fold temp_path.
  unfold Transcribe.transcribe_body, Py.bind. rewrite Hext.
  unfold Transcribe.extract_from_video, Py.try_except, Py.bind, Py.lift.
  rewrite Hopen. change (negb false) with true. unfold Py.ret.
  cbv beta iota.
  unfold Transcribe.unlink_quietly, Py.try_except, Transcribe.unlink.
  rewrite file_exists_create_same, Hunlink. reflexivity.
Qed.

Lemma video_without_audio_track_witness :
  PyStr.mem (PyStr.lower (App.file_ext_of "clip.MOV")) Transcribe.video_exts
  = true
  /\ Transcribe.transcribe_audio Demo2.world_silent_video
       {| Transcribe.up_name := Some "clip.MOV" |} ["/tmp/keep.txt"]
     = ("❌ No audio track found in video file", ["/tmp/keep.txt"]).
Proof.
  split; [reflexivity|].
  exact (video_without_audio_track Demo.pydub Demo2.world_silent_video
           "clip.MOV" "/tmp/tmpab12cd" ["/tmp/keep.txt"]
           eq_refl eq_refl eq_refl eq_refl eq_refl).
Defined.



(** X8.  A video whose audio is extracted and loaded: the call goes
    on with the chunking of the normalized audio, and where the
    system lets both files be unlinked neither the saved upload nor
    the extracted WAV is left at the end, whatever the chunking
    returns or raises. *)
Theorem video_upload_cleaned (P : Transcribe.Pydub)
  (w : Transcribe.World P) (name stem : string)
  (audio : Transcribe.AudioSegment P) (s : Py.fs) :
  let file_ext := App.file_ext_of name in
  let temp_path := stem ++ "." ++ file_ext in
  let wav_path := App.wav_path_of file_ext temp_path in
  PyStr.mem (PyStr.lower file_ext) Transcribe.video_exts = true ->
  Transcribe.w_tempfile w = Py.Ok stem ->
  Transcribe.w_write_upload w = Py.Ok tt ->
  Transcribe.w_open_video w temp_path = Py.Ok true ->
  Transcribe.w_write_audiofile w wav_path = Py.Ok tt ->
  Transcribe.w_close_video w = Py.Ok tt ->
  Transcribe.w_from_file w wav_path = Py.Ok audio ->
  Transcribe.w_unlink w wav_path = Py.Ok tt ->
  Transcribe.w_unlink w temp_path = Py.Ok tt ->
  fst (Transcribe.transcribe_audio w {| Transcribe.up_name := Some name |} s)
  = match Transcribe.transcribe_chunks w (Transcribe.normalize audio) with
    | Py.Ok text => text
    | Py.Raise e => Transcribe.outer_handler e
    end
  /\ Py.file_exists temp_path
       (snd (Transcribe.transcribe_audio w
               {| Transcribe.up_name := Some name |} s)) = false
  /\ Py.file_exists wav_path
       (snd (Transcribe.transcribe_audio w
               {| Transcribe.up_name := Some name |} s)) = false.
Proof.
  intros file_ext temp_path wav_path Hext Htmp Hwrite Hopen Hwav Hclose Hload
         Hunwav Huntemp.
  rewrite (transcribe_audio_saved w name stem s Htmp Hwrite). cbn zeta.
  fold file_ext. fold temp_path.
  unfold Transcribe.transcribe_body, Py.bind. rewrite Hext.
  unfold Transcribe.extract_from_video, Py.try_except, Py.bind, Py.lift.
  rewrite Hopen. change (negb true) with false. cbv beta iota.
  fold (App.wav_path_of file_ext temp_path). fold wav_path.
  unfold Transcribe.write_audiofile. rewrite Hwav, Hclose, Hload.
  rewrite (unlink_quietly_succeeds w wav_path _
             (file_exists_create_same wav_path _) Hunwav).
  unfold Py.ret. cbv beta iota.
  set (s2 := Py.remove_file wav_path
               (Py.create_file wav_path (Py.create_file temp_path s))).
  assert (Hwav_gone : Py.file_exists wav_path s2 = false)
    by apply file_exists_remove.
  destruct (Transcribe.transcribe_chunks w (Transcribe.normalize audio))
    as [text|e]; cbn [fst snd];
    (split; [reflexivity|]; split;
     [now apply unlink_quietly_removes
     | now apply unlink_quietly_keeps_absent]).
Qed.

Lemma video_upload_cleaned_witness :
  PyStr.mem (PyStr.lower (App.file_ext_of "lecture.mp4")) Transcribe.video_exts
  = true
  /\ Py.file_exists "/tmp/tmpab12cd_audio.wav"
       (snd (Transcribe.transcribe_audio
               (Demo.world (Demo.canonical 45000) Demo2.recognize_then_crash)
               {| Transcribe.up_name := Some "lecture.mp4" |} [])) = false
  /\ fst (Transcribe.transcribe_audio
            (Demo.world (Demo.canonical 45000) Demo2.recognize_then_crash)
            {| Transcribe.up_name := Some "lecture.mp4" |} [])
     = "❌ Error: broken pipe".
Proof.
  split; [reflexivity|].
  destruct (video_upload_cleaned Demo.pydub
              (Demo.world (Demo.canonical 45000) Demo2.recognize_then_crash)
              "lecture.mp4" "/tmp/tmpab12cd" (Demo.canonical 45000) []
              eq_refl eq_refl eq_refl eq_refl eq_refl eq_refl eq_refl eq_refl
              eq_refl) as (Hfst & _ & Hwav).
  split; [exact Hwav | exact Hfst].
Defined.

(** ** The important words and the summary *)

Section MoreNotesFacts.
Import Py Notes.

Lemma length_set_iter (f : list string -> list string) (l : list string) :
  set_iter_ok f -> List.length (f l) = List.length (nodup string_dec l).
Proof.
  intros Hok. destruct (Hok l) as [Hnd Hin].
  apply Permutation_length, NoDup_Permutation.
  - exact Hnd.
  - apply NoDup_nodup.
  - intros x. rewrite Hin, nodup_In. reflexivity.
Qed.

Lemma notes_important_words_eq (env : Env) (transcript : string) :
  notes_important_words env transcript
  = firstn 10
      (sorted_len_desc
         (set_iter env
            (map PyStr.lower (firstn 900 (PyStr.split_ws transcript))))).
Proof.
  unfold notes_important_words, important_words.
  now rewrite notes_transcript_words.
Qed.

Lemma NoDup_firstn_keeps {A : Type} (n : nat) (l : list A) :
  NoDup l -> NoDup (firstn n l).
Proof.
  intros H. revert n. induction H as [|x l Hx Hl IH]; intros [|n]; simpl;
    try constructor.
  - intros Hin. apply Hx. eapply in_firstn_in; eassumption.
  - apply IH.
Qed.

Lemma StronglySorted_app_cross {A : Type} (R : A -> A -> Prop)
  (l1 l2 : list A) :
  StronglySorted R (l1 ++ l2)%list ->
  StronglySorted R l1 /\ forall x y, In x l1 -> In y l2 -> R x y.
Proof.
  induction l1 as [|a l1 IH]; simpl; intros H.
  - split; [constructor | intros x y []].
  - inversion H as [|? ? Hs Hall]; subst.
    destruct (IH Hs) as [Hs1 Hcross]. split.
    + constructor; [exact Hs1|].
      rewrite Forall_forall in *. intros x Hx. apply Hall.
      apply in_or_app. now left.
    + intros x y [<-|Hx] Hy.
      * rewrite Forall_forall in Hall. apply Hall. apply in_or_app. now right.
      * now apply Hcross.
Qed.

End MoreNotesFacts.

(** ** More on [extract_video_id] *)

Lemma re_search_after_prefix (pre p g rest : string) :
  VideoId.matches_before (String.length pre) (pre ++ p ++ g ++ rest) = false ->
  p = "v=" \/ p = "/" ->
  VideoId.is_video_id g ->
  VideoId.re_search (pre ++ p ++ g ++ rest) = Some g.
Proof.
  intros Hscan Hp Hg. apply re_search_some.
  exists (String.length pre). split.
  - rewrite drop_append. now apply match_at_complete.
  - apply matches_before_false. exact Hscan.
Qed.

(** X12.  The usual layouts of a YouTube link give the identifier
    they carry: a watch link with the identifier as [v=] parameter
    and a short [youtu.be] link, whatever follows the 11
    characters (further parameters, or more identifier characters,
    are ignored). *)
Theorem usual_links_give_their_id (g rest : string) :
  VideoId.is_video_id g ->
  VideoId.extract_video_id ("https://www.youtube.com/watch?v=" ++ g ++ rest)
  = Some g
  /\ VideoId.extract_video_id ("https://youtube.com/watch?v=" ++ g ++ rest)
     = Some g
  /\ VideoId.extract_video_id ("https://youtu.be/" ++ g ++ rest) = Some g
  /\ VideoId.extract_video_id ("https://www.youtube.com/embed/" ++ g ++ rest)
     = Some g.
Proof.
  intros Hg. unfold VideoId.extract_video_id.
  split; [|split; [|split]].
  - apply (re_search_after_prefix "https://www.youtube.com/watch?" "v=" g rest);
      [reflexivity | now left | exact Hg].
  - apply (re_search_after_prefix "https://youtube.com/watch?" "v=" g rest);
      [reflexivity | now left | exact Hg].
  - apply (re_search_after_prefix "https://youtu.be" "/" g rest);
      [reflexivity | now right | exact Hg].
  - apply (re_search_after_prefix "https://www.youtube.com/embed" "/" g rest);
      [reflexivity | now right | exact Hg].
Qed.

Lemma usual_links_give_their_id_witness :
  VideoId.is_video_id "dQw4w9WgXcQ"
  /\ VideoId.extract_video_id
       "https://www.youtube.com/watch?v=dQw4w9WgXcQ&t=42s"
     = Some "dQw4w9WgXcQ".
Proof.
  assert (Hg : VideoId.is_video_id "dQw4w9WgXcQ") by (split; reflexivity).
  split; [exact Hg|].
  exact (proj1 (usual_links_give_their_id "dQw4w9WgXcQ" "&t=42s" Hg)).
Defined.

(** X13.  A string of fewer than 12 characters has no identifier: a
    prefix and 11 characters do not fit. *)
Theorem short_string_has_no_id (url : string) :
  String.length url < 12 -> VideoId.extract_video_id url = None.
Proof.
  intros Hshort. unfold VideoId.extract_video_id.
  destruct (VideoId.re_search url) as [g|] eqn:H; [|reflexivity].
  exfalso.
  apply re_search_some in H as (n & Hn & _).
  destruct (match_at_sound _ _ Hn) as (p & post & Hp & Hs & Hlen & _).
  assert (Hl : String.length (PyStr.take n url ++ PyStr.drop n url)
               = String.length url) by now rewrite take_drop.
  rewrite length_append, Hs, !length_append, Hlen in Hl.
  destruct Hp as [-> | ->]; simpl in Hl; lia.
Qed.

Lemma short_string_has_no_id_witness :
  String.length "/dQw4w9WgXc" < 12
  /\ VideoId.extract_video_id "/dQw4w9WgXc" = None.
Proof.
  assert (H : String.length "/dQw4w9WgXc" < 12) by (simpl; lia).
  split; [exact H|].
  exact (short_string_has_no_id "/dQw4w9WgXc" H).
Defined.

(** ** More on the YouTube flow *)

Section MoreYouTubeFacts.
Import YouTube.
Context (api : Api).

Lemma try_tracks_source (ts : list (track api)) :
  forall data0 d,
    try_tracks api ts data0 = Some d ->
    data0 = Some d \/ exists t, In t ts /\ fetch_track api t = inr d.
Proof.
  induction ts as [|t ts IH]; intros data0 d H; simpl in H; [now left|].
  destruct (fetch_track api t) as [e'|d'] eqn:Ht.
  - destruct (IH _ _ H) as [H0|(t' & Hin & Hf)]; [now left|].
    right. exists t'. split; [now right | exact Hf].
  - destruct (truthy d').
    + injection H as <-. right. exists t. split; [now left | exact Ht].
    + destruct (IH _ _ H) as [H0|(t' & Hin & Hf)].
      * injection H0 as <-. right. exists t. split; [now left | exact Ht].
      * right. exists t'. split; [now right | exact Hf].
Qed.

(** Tracks that raise or fetch nothing, one of them at least fetching
    nothing, leave the loop with empty data. *)
Lemma try_tracks_only_empty (ts : list (track api)) :
  (forall t, In t ts ->
             fetch_track api t = inr [] \/ exists e', fetch_track api t = inl e') ->
  forall data0,
    (data0 = Some [] \/ exists t, In t ts /\ fetch_track api t = inr []) ->
    try_tracks api ts data0 = Some [].
Proof.
  induction ts as [|t ts IH]; intros Hall data0 Hsome; simpl.
  - destruct Hsome as [H|(t & [] & _)]. exact H.
  - assert (Hall' : forall t', In t' ts ->
              fetch_track api t' = inr [] \/ exists e', fetch_track api t' = inl e')
      by (intros t' Ht'; apply Hall; now right).
    destruct (Hall t (or_introl eq_refl)) as [Ht|[e' Ht]]; rewrite Ht; simpl.
    + apply IH; [exact Hall' | now left].
    + apply IH; [exact Hall'|].
      destruct Hsome as [H|(t' & [<-|Hin] & Hf)].
      * now left.
      * congruence.
      * right. now exists t'.
Qed.

End MoreYouTubeFacts.

(** X14.  The second tab never shows a transcript that came from
    nowhere: a retrieved text is the joined items either of the
    default fetch or, after a failure of one of the classes of line
    263, of a listed track whose fetch succeeded. *)
Theorem retrieved_text_has_a_source (api : YouTube.Api) (url text : string) :
  YouTube.youtube_flow api url = YouTube.Retrieved text ->
  exists video_id data,
    VideoId.extract_video_id url = Some video_id
    /\ text = PyStr.join " " data
    /\ (YouTube.fetch api video_id = inr data
        \/ exists e ts t,
             YouTube.fetch api video_id = inl e
             /\ YouTube.caught_by_fallback api e = true
             /\ YouTube.list_tracks api video_id = inr ts
             /\ In t ts
             /\ YouTube.fetch_track api t = inr data).
Proof.
  unfold YouTube.youtube_flow, YouTube.fetch_with_fallback.
  destruct (PyStr.is_empty url); [discriminate|].
  destruct (VideoId.extract_video_id url) as [video_id|]; [|discriminate].
  destruct (YouTube.fetch api video_id) as [e|data] eqn:Hfetch.
  - destruct (YouTube.caught_by_fallback api e) eqn:Hcaught; [|discriminate].
    destruct (YouTube.list_tracks api video_id) as [e'|ts] eqn:Hlist;
      [discriminate|].
    destruct (YouTube.try_tracks api ts None) as [data|] eqn:Htry;
      [|discriminate].
    intros [= <-]. exists video_id, data.
    split; [reflexivity|]. split; [reflexivity|]. right.
    destruct (try_tracks_source api ts _ _ Htry) as [H|(t & Hin & Hf)];
      [discriminate|].
    now exists e, ts, t.
  - intros [= <-]. exists video_id, data. auto.
Qed.

Lemma retrieved_text_has_a_source_witness :
  YouTube.youtube_flow
    (Demo.api (inl YouTube.NoTranscriptFound) Demo.tracks_third_good)
    Demo.watch_url = YouTube.Retrieved "hi there"
  /\ exists video_id data,
       VideoId.extract_video_id Demo.watch_url = Some video_id
       /\ "hi there" = PyStr.join " " data.
Proof.
  assert (H : YouTube.youtube_flow
                (Demo.api (inl YouTube.NoTranscriptFound)
                          Demo.tracks_third_good)
                Demo.watch_url = YouTube.Retrieved "hi there") by reflexivity.
  split; [exact H|].
  destruct (retrieved_text_has_a_source _ _ _ H)
    as (video_id & data & Hid & Htext & _).
  now exists video_id, data.
Defined.

(** X15.  What the second tab reports when the fallback does not
    produce data: a failure of the default fetch outside the classes
    of line 263 is reported as it is, without listing the tracks;
    when listing the tracks fails, the failure of the listing is
    reported, not the one of the default fetch. *)
Theorem fallback_failures_reported (api : YouTube.Api)
  (url video_id : string) (e : YouTube.exn api) :
  VideoId.extract_video_id url = Some video_id ->
  YouTube.fetch api video_id = inl e ->
  (YouTube.caught_by_fallback api e = false ->
   YouTube.youtube_flow api url = YouTube.Reported (YouTube.report api e))
  /\ (forall e',
         YouTube.caught_by_fallback api e = true ->
         YouTube.list_tracks api video_id = inl e' ->
         YouTube.youtube_flow api url = YouTube.Reported (YouTube.report api e')).
Proof.
  intros Hid Hfetch.
  unfold YouTube.youtube_flow, YouTube.fetch_with_fallback.
  rewrite (extract_video_id_nonempty _ _ Hid), Hid, Hfetch.
  split.
  - intros Hc. now rewrite Hc.
  - intros e' Hc Hlist. now rewrite Hc, Hlist.
Qed.

Lemma fallback_failures_reported_witness :
  YouTube.youtube_flow
    (Demo2.api_listing_fails YouTube.VideoUnavailable
                             YouTube.TranscriptsDisabled)
    Demo.watch_url
  = YouTube.Reported "Video unavailable — check the URL or region restrictions."
  /\ YouTube.youtube_flow
       (Demo2.api_listing_fails YouTube.NoTranscriptFound
                                YouTube.TranscriptsDisabled)
       Demo.watch_url
     = YouTube.Reported "Transcripts are disabled for this video.".
Proof.
  split.
  - exact (proj1 (fallback_failures_reported
                    (Demo2.api_listing_fails YouTube.VideoUnavailable
                                             YouTube.TranscriptsDisabled)
                    Demo.watch_url "ABCDEFGHIJK" YouTube.VideoUnavailable
                    eq_refl eq_refl) eq_refl).
  - exact (proj2 (fallback_failures_reported
                    (Demo2.api_listing_fails YouTube.NoTranscriptFound
                                             YouTube.TranscriptsDisabled)
                    Demo.watch_url "ABCDEFGHIJK" YouTube.NoTranscriptFound
                    eq_refl eq_refl) YouTube.TranscriptsDisabled eq_refl eq_refl).
Defined.
(** ** The first tab and the final display *)

Section RunFacts.
Import Py.

Lemma two_distinct_in_nodup (l : list string) (a b : string) :
  In a l -> In b l -> a <> b -> 2 <= List.length (nodup string_dec l).
Proof.
  intros Ha Hb Hab.
  change 2 with (List.length [a; b]).
  apply NoDup_incl_length.
  - constructor; [intros [H|[]]; congruence|].
    constructor; [intros [] | constructor].
  - intros x [<-|[<-|[]]]; now apply nodup_In.
Qed.

Lemma important_words_length (env : Notes.Env) (transcript : string) :
  Notes.set_iter_ok (Notes.set_iter env) ->
  List.length (Notes.notes_important_words env transcript)
  = Nat.min 10
      (List.length
         (nodup string_dec
            (map PyStr.lower (firstn 900 (PyStr.split_ws transcript))))).
Proof.
  intros Hok.
  rewrite notes_important_words_eq, length_firstn, length_sorted_len_desc.
  now rewrite (length_set_iter _ _ Hok).
Qed.

(** A text with two different lower-cased words among its first 900
    is turned into a study guide. *)
Lemma two_words_give_study_guide (env : Notes.Env) (text a b : string) :
  Notes.set_iter_ok (Notes.set_iter env) ->
  PyStr.is_empty text = false ->
  In a (map PyStr.lower (firstn 900 (PyStr.split_ws text))) ->
  In b (map PyStr.lower (firstn 900 (PyStr.split_ws text))) ->
  a <> b ->
  exists notes, App.final_output env text = App.StudyGuide notes.
Proof.
  intros Hok Hne Ha Hb Hab.
  unfold App.final_output. rewrite Hne.
  unfold Notes.generate_ai_notes.
  fold (Notes.notes_important_words env text).
  destruct (proj1 (quiz_questions_defined
                     (Notes.notes_important_words env text)))
    as [quiz Hquiz].
  - rewrite (important_words_length env text Hok).
    pose proof (two_distinct_in_nodup _ a b Ha Hb Hab). lia.
  - rewrite Hquiz. simpl. eauto.
Qed.


Lemma upload_run_of_return {P : Transcribe.Pydub} (w : Transcribe.World P)
  (env : Notes.Env) (name : string) (s : fs) :
  App.upload_run w env name s
  = let t := fst (Transcribe.transcribe_audio w
                    {| Transcribe.up_name := Some name |} s) in
    (if negb (PyStr.is_empty t) && negb (App.contains "Error" t)
     then App.Transcribed t else App.TranscribeError t,
     App.final_output env t,
     snd (Transcribe.transcribe_audio w
            {| Transcribe.up_name := Some name |} s)).
Proof.
  unfold App.upload_run, App.upload_flow.
  destruct (Transcribe.transcribe_audio w
              {| Transcribe.up_name := Some name |} s) as [t s'].
  cbn [fst snd]. cbv zeta.
  destruct (negb (PyStr.is_empty t) && negb (App.contains "Error" t));
    reflexivity.
Qed.

Lemma contains_error_request_failed (e : exn) :
  App.contains "Error" (Transcribe.request_failed e)
  = App.contains "Error" (exn_str e).
Proof. reflexivity. Qed.

Lemma split_ws_request_failed (e : exn) :
  PyStr.split_ws (Transcribe.request_failed e)
  = "❌" :: "recognition" :: "request" :: "failed:"
    :: PyStr.split_ws (exn_str e).
Proof. reflexivity. Qed.

Lemma split_ws_outer_handler (e : exn) :
  exists second rest,
    PyStr.split_ws (Transcribe.outer_handler e) = "❌" :: second :: rest
    /\ PyStr.lower second <> "❌".
Proof.
  unfold Transcribe.outer_handler.
  destruct (exn_cls e).
  - exists "Internet", ("required." :: "Error:" :: PyStr.split_ws (exn_str e)).
    split; [reflexivity | discriminate].
  - eexists "Could", _. split; [vm_compute; reflexivity | discriminate].
  - exists "Error:", (PyStr.split_ws (exn_str e)).
    split; [reflexivity | discriminate].
  - exists "Error:", (PyStr.split_ws (exn_str e)).
    split; [reflexivity | discriminate].
  - exists "Error:", (PyStr.split_ws (exn_str e)).
    split; [reflexivity | discriminate].
Qed.

Lemma outer_handler_shown_as_error (e : exn) :
  exn_cls e <> UnknownValueError ->
  negb (PyStr.is_empty (Transcribe.outer_handler e))
  && negb (App.contains "Error" (Transcribe.outer_handler e)) = false.
Proof.
  intros Hc. unfold Transcribe.outer_handler.
  destruct (exn_cls e); try reflexivity. congruence.
Qed.

End RunFacts.

(** X16.  The test of line 241 only looks for the substring [Error],
    so two error returns of [transcribe_audio] are shown as a
    completed transcription and turned into a study guide: the
    message for a video without audio track, and the message for a
    failed recognition request when the text of the exception does
    not hold [Error]. *)
Theorem error_returns_shown_as_transcripts (P : Transcribe.Pydub)
  (w : Transcribe.World P) (env : Notes.Env) (name : string) (s : Py.fs) :
  Notes.set_iter_ok (Notes.set_iter env) ->
  let returned :=
    fst (Transcribe.transcribe_audio w {| Transcribe.up_name := Some name |} s) in
  (returned = "❌ No audio track found in video file" ->
   exists notes s',
     App.upload_run w env name s
     = (App.Transcribed returned, App.StudyGuide notes, s'))
  /\ (forall e,
         returned = "❌ recognition request failed: " ++ Py.exn_str e ->
         App.contains "Error" (Py.exn_str e) = false ->
         exists notes s',
           App.upload_run w env name s
           = (App.Transcribed returned, App.StudyGuide notes, s')).
Proof.
  intros Hok returned. split.
  - intros Hret. rewrite upload_run_of_return. cbv zeta. fold returned.
    rewrite Hret.
    destruct (two_words_give_study_guide env
                "❌ No audio track found in video file" "❌" "no" Hok eq_refl)
      as [notes Hnotes].
    + vm_compute. auto.
    + vm_compute. auto.
    + discriminate.
    + rewrite Hnotes. eexists _, _. reflexivity.
  - intros e Hret Hnoerr. rewrite upload_run_of_return. cbv zeta. fold returned.
    rewrite Hret. fold (Transcribe.request_failed e).
    rewrite contains_error_request_failed, Hnoerr.
    destruct (two_words_give_study_guide env (Transcribe.request_failed e)
                "❌" "recognition" Hok eq_refl) as [notes Hnotes].
    + rewrite split_ws_request_failed. now left.
    + rewrite split_ws_request_failed. right. now left.
    + discriminate.
    + rewrite Hnotes. eexists _, _. reflexivity.
Qed.

Lemma error_returns_shown_as_transcripts_witness :
  Notes.set_iter_ok (Notes.set_iter Demo.env)
  /\ (exists notes s',
         App.upload_run Demo2.world_silent_video Demo.env "clip.mp4" []
         = (App.Transcribed "❌ No audio track found in video file",
            App.StudyGuide notes, s'))
  /\ (exists notes s',
         App.upload_run
           (Demo.world (Demo.canonical 100000) Demo.recognize_mixed)
           Demo.env "lecture.wav" []
         = (App.Transcribed "❌ recognition request failed: connection failed",
            App.StudyGuide notes, s')).
Proof.
  split; [exact insertion_order_ok|]. split.
  - exact (proj1 (error_returns_shown_as_transcripts Demo.pydub
                    Demo2.world_silent_video Demo.env "clip.mp4" []
                    insertion_order_ok) eq_refl).
  - exact (proj2 (error_returns_shown_as_transcripts Demo.pydub
                    (Demo.world (Demo.canonical 100000) Demo.recognize_mixed)
                    Demo.env "lecture.wav" [] insertion_order_ok)
             (Py.mk_exn Py.RequestError "connection failed") eq_refl eq_refl).
Defined.

(** X17.  When [transcribe_audio] returns a message of its outer
    handlers for an exception other than [UnknownValueError], the
    first tab shows it as an error, and the final display still
    runs on it: a study guide is generated from the error text. *)
Theorem outer_errors_still_summarized (P : Transcribe.Pydub)
  (w : Transcribe.World P) (env : Notes.Env) (name : string) (s : Py.fs)
  (e : Py.exn) :
  Notes.set_iter_ok (Notes.set_iter env) ->
  fst (Transcribe.transcribe_audio w {| Transcribe.up_name := Some name |} s)
  = Transcribe.outer_handler e ->
  Py.exn_cls e <> Py.UnknownValueError ->
  exists notes s',
    App.upload_run w env name s
    = (App.TranscribeError (Transcribe.outer_handler e),
       App.StudyGuide notes, s').
Proof.
  intros Hok Hret Hc.
  rewrite upload_run_of_return. cbv zeta. rewrite Hret.
  rewrite (outer_handler_shown_as_error e Hc).
  destruct (split_ws_outer_handler e) as (second & rest & Hsplit & Hdiff).
  destruct (two_words_give_study_guide env (Transcribe.outer_handler e)
              "❌" (PyStr.lower second) Hok) as [notes Hnotes].
  - unfold Transcribe.outer_handler. destruct (Py.exn_cls e); reflexivity.
  - rewrite Hsplit. now left.
  - rewrite Hsplit. right. now left.
  - congruence.
  - rewrite Hnotes. eexists _, _. reflexivity.
Qed.

Lemma outer_errors_still_summarized_witness :
  Notes.set_iter_ok (Notes.set_iter Demo.env)
  /\ exists notes s',
       App.upload_run Demo2.world_disk_full Demo.env "lecture.mp3" []
       = (App.TranscribeError "❌ Error: No space left on device",
          App.StudyGuide notes, s').
Proof.
  split; [exact insertion_order_ok|].
  exact (outer_errors_still_summarized Demo.pydub Demo2.world_disk_full
           Demo.env "lecture.mp3" []
           (Py.mk_exn Py.OSError "No space left on device")
           insertion_order_ok eq_refl ltac:(discriminate)).
Defined.

Section EndToEnd.
Import Py.
Context {P : Transcribe.Pydub} (w : Transcribe.World P).








End EndToEnd.





(** X20.  When the default fetch fails with a class of line 263 and
    the listed tracks only raise or fetch nothing, one of them at
    least fetching nothing, the original failure is not raised
    again: the second tab announces a retrieved transcript, which is
    empty, and no notes are generated. *)
Theorem empty_tracks_count_as_retrieved (api : YouTube.Api) (env : Notes.Env)
  (url video_id : string) (e : YouTube.exn api)
  (ts : list (YouTube.track api)) (t0 : YouTube.track api) :
  VideoId.extract_video_id url = Some video_id ->
  YouTube.fetch api video_id = inl e ->
  YouTube.caught_by_fallback api e = true ->
  YouTube.list_tracks api video_id = inr ts ->
  (forall t, In t ts ->
             YouTube.fetch_track api t = inr []
             \/ exists e', YouTube.fetch_track api t = inl e') ->
  In t0 ts -> YouTube.fetch_track api t0 = inr [] ->
  App.youtube_run api env url = (YouTube.Retrieved "", App.NoOutput).
Proof.
  intros Hid Hfetch Hcaught Hlist Hall Hin Hempty.
  unfold App.youtube_run, YouTube.youtube_flow, YouTube.fetch_with_fallback.
  rewrite (extract_video_id_nonempty _ _ Hid), Hid, Hfetch, Hcaught, Hlist.
  rewrite (try_tracks_only_empty api ts Hall None)
    by (right; now exists t0).
  reflexivity.
Qed.

Lemma empty_tracks_count_as_retrieved_witness :
  App.youtube_run
    (Demo.api (inl YouTube.NoTranscriptFound)
              [inl YouTube.VideoUnavailable; inr []])
    Demo.env Demo.watch_url
  = (YouTube.Retrieved "", App.NoOutput).
Proof.
  refine (empty_tracks_count_as_retrieved
            (Demo.api (inl YouTube.NoTranscriptFound)
                      [inl YouTube.VideoUnavailable; inr []])
            Demo.env Demo.watch_url "ABCDEFGHIJK" YouTube.NoTranscriptFound
            [inl YouTube.VideoUnavailable; inr []] (inr [])
            eq_refl eq_refl eq_refl eq_refl _ _ eq_refl).
  - intros t [<-|[<-|[]]]; [right; now exists YouTube.VideoUnavailable | now left].
  - right. now left.
Defined.

(** ** Failures of the extraction from a video *)

(** X21.  When the audio of a video was written to the WAV path and
    a later step of the extraction raises (closing the clip, or
    loading the WAV), the call returns the extraction message with
    the text of that exception, and the WAV is still there at the
    end of the call. *)
Theorem wav_left_when_extraction_fails_late (P : Transcribe.Pydub)
  (w : Transcribe.World P) (name stem : string) (e : Py.exn) (s : Py.fs) :
  let file_ext := App.file_ext_of name in
  let temp_path := stem ++ "." ++ file_ext in
  let wav_path := App.wav_path_of file_ext temp_path in
  PyStr.mem (PyStr.lower file_ext) Transcribe.video_exts = true ->
  Transcribe.w_tempfile w = Py.Ok stem ->
  Transcribe.w_write_upload w = Py.Ok tt ->
  Transcribe.w_open_video w temp_path = Py.Ok true ->
  Transcribe.w_write_audiofile w wav_path = Py.Ok tt ->
  (Transcribe.w_close_video w = Py.Raise e
   \/ (Transcribe.w_close_video w = Py.Ok tt
       /\ Transcribe.w_from_file w wav_path = Py.Raise e)) ->
  wav_path <> temp_path ->
  fst (Transcribe.transcribe_audio w {| Transcribe.up_name := Some name |} s)
  = "❌ Cannot extract audio from " ++ PyStr.upper file_ext ++ ": "
    ++ Py.exn_str e
  /\ Py.file_exists wav_path
       (snd (Transcribe.transcribe_audio w
               {| Transcribe.up_name := Some name |} s)) = true.
Proof.
  intros file_ext temp_path wav_path Hext Htmp Hwrite Hopen Hwav Hlate Hdiff.
  rewrite (transcribe_audio_saved w name stem s Htmp Hwrite). cbn zeta.
  fold file_ext. fold temp_path.
  unfold Transcribe.transcribe_body, Py.bind. rewrite Hext.
  unfold Transcribe.extract_from_video, Py.try_except, Py.bind, Py.lift.
  rewrite Hopen. change (negb true) with false. cbv beta iota.
  fold (App.wav_path_of file_ext temp_path). fold wav_path.
  unfold Transcribe.write_audiofile. rewrite Hwav.
  assert (Hkept : Py.file_exists wav_path
                    (snd (Transcribe.unlink_quietly w temp_path
                            (Py.create_file wav_path
                               (Py.create_file temp_path s)))) = true).
  { rewrite (touches_unlink_quietly w [temp_path] temp_path
               (or_introl eq_refl) _ wav_path).
    - apply file_exists_create_same.
    - intros [H|[]]. now apply Hdiff. }
  destruct Hlate as [Hclose | [Hclose Hload]].
  - rewrite Hclose. unfold Py.ret. cbn [fst snd].
    split; [reflexivity | exact Hkept].
  - rewrite Hclose, Hload. unfold Py.ret. cbn [fst snd].
    split; [reflexivity | exact Hkept].
Qed.

Lemma wav_left_when_extraction_fails_late_witness :
  App.wav_path_of "mp4" "/tmp/tmpab12cd.mp4" <> "/tmp/tmpab12cd.mp4"
  /\ Py.file_exists "/tmp/tmpab12cd_audio.wav"
       (snd (Transcribe.transcribe_audio
               (Demo.world_wav_unreadable (Demo.canonical 45000)
                                          Demo.recognize_all)
               {| Transcribe.up_name := Some "lecture.mp4" |} [])) = true.
Proof.
  assert (Hdiff : App.wav_path_of "mp4" "/tmp/tmpab12cd.mp4"
                  <> "/tmp/tmpab12cd.mp4") by (vm_compute; discriminate).
  split; [exact Hdiff|].
  exact (proj2 (wav_left_when_extraction_fails_late Demo.pydub
                  (Demo.world_wav_unreadable (Demo.canonical 45000)
                                             Demo.recognize_all)
                  "lecture.mp4" "/tmp/tmpab12cd"
                  (Py.mk_exn Py.OtherException "Decoding failed") []
                  eq_refl eq_refl eq_refl eq_refl eq_refl
                  (or_intror (conj eq_refl eq_refl)) Hdiff)).
Defined.

(** ** The options of the quiz and the bullets of one sentence *)

Lemma firstn_two_heads {A : Type} (n : nat) (l : list A) (a b : A)
  (r : list A) :
  firstn n l = a :: b :: r -> exists r', l = a :: b :: r'.
Proof.
  destruct n as [|[|n]]; destruct l as [|x [|y l]]; simpl; try discriminate.
  intros [= -> -> _]. now exists l.
Qed.

(* ===================================================================== *)
(** * The notes over code points *)
(* ===================================================================== *)

Section TextFacts.
Import Text.
Local Open Scope list_scope.

Lemma utf8_space : utf8 " " = [32%N].
Proof. reflexivity. Qed.

Lemma text_split_ws_aux_words (s : str) : forall cur,
  forallb (fun c => negb (is_space c)) cur = true ->
  Forall is_word (split_ws_aux cur s).
Proof.
  induction s as [|c r IH]; intros cur Hcur; simpl.
  - destruct cur; constructor; [|constructor].
    split; [discriminate | exact Hcur].
  - destruct (is_space c) eqn:Hc.
    + destruct cur as [|x cur'].
      * now apply IH.
      * constructor; [split; [discriminate | exact Hcur] | now apply IH].
    + apply IH. rewrite forallb_app, Hcur. simpl. now rewrite Hc.
Qed.

Lemma text_split_ws_words (s : str) : Forall is_word (split_ws s).
Proof. now apply text_split_ws_aux_words. Qed.

Lemma text_split_ws_aux_word (w : str) : forall cur rest,
  forallb (fun c => negb (is_space c)) w = true ->
  split_ws_aux cur (w ++ rest) = split_ws_aux (cur ++ w) rest.
Proof.
  induction w as [|c w IH]; intros cur rest Hw; simpl.
  - now rewrite app_nil_r.
  - simpl in Hw. apply andb_true_iff in Hw as [Hc Hw].
    apply negb_true_iff in Hc. rewrite Hc.
    rewrite IH by exact Hw. now rewrite <- app_assoc.
Qed.

(** Words joined by single spaces split back into the same words. *)
Lemma text_split_ws_join (ws : list str) :
  Forall is_word ws -> split_ws (join [32%N] ws) = ws.
Proof.
  unfold split_ws.
  induction 1 as [|w ws [Hne Hw] Hws IH]; [reflexivity|].
  destruct ws as [|w' ws'].
  - simpl. rewrite <- (app_nil_r w) at 1.
    rewrite text_split_ws_aux_word by exact Hw. simpl.
    destruct w; [congruence | reflexivity].
  - change (join [32%N] (w :: w' :: ws'))
      with (w ++ 32%N :: join [32%N] (w' :: ws')).
    rewrite text_split_ws_aux_word by exact Hw.
    set (rest := join [32%N] (w' :: ws')) in *.
    simpl. destruct w; [congruence|]. now rewrite IH.
Qed.

Lemma text_split_aux_nonempty (sep : str) (s : str) : forall k cur,
  split_aux sep k cur s <> [].
Proof.
  induction s as [|c r IH]; intros k cur; cbn [split_aux]; [discriminate|].
  destruct k; [|apply IH].
  destruct (starts_with sep (c :: r)); [discriminate | apply IH].
Qed.

Lemma starts_with_skipn (a s : str) :
  starts_with a s = true -> a ++ skipn (List.length a) s = s.
Proof.
  revert s. induction a as [|x a IH]; intros s H; [reflexivity|].
  destruct s as [|y s]; [discriminate|]. simpl in H.
  apply andb_true_iff in H as [Hxy H]. apply N.eqb_eq in Hxy. subst y.
  simpl. now rewrite IH.
Qed.

(** The fragments of [s.split(sep)], joined by [sep], give [s] back. *)
Lemma text_join_split_aux (sep : str) (s : str) :
  sep <> [] ->
  forall k cur, join sep (split_aux sep k cur s) = cur ++ skipn k s.
Proof.
  intros Hsep.
  induction s as [|c r IH]; intros k cur.
  - simpl. destruct k; simpl; now rewrite app_nil_r.
  - destruct k as [|k].
    + cbn [split_aux].
      destruct (starts_with sep (c :: r)) eqn:Hp.
      * pose proof (text_split_aux_nonempty sep r (List.length sep - 1) [])
          as Hne.
        cbn [join].
        destruct (split_aux sep (List.length sep - 1) [] r) as [|f fs] eqn:Hs;
          [congruence|].
        rewrite <- Hs, IH. cbn [app skipn]. f_equal.
        pose proof (starts_with_skipn _ _ Hp) as Hd.
        destruct sep as [|x sep']; [congruence|].
        replace (List.length (x :: sep') - 1) with (List.length sep')
          by (simpl; lia).
        cbn [List.length skipn] in Hd. exact Hd.
      * rewrite IH. cbn [skipn]. now rewrite <- app_assoc.
    + simpl. apply IH.
Qed.

Lemma text_join_split (sep s : str) :
  sep <> [] -> join sep (split sep s) = s.
Proof. intros H. unfold split. now rewrite text_join_split_aux. Qed.

Lemma text_split_without_separator (sep s : str) :
  contains sep s = false ->
  forall cur, split_aux sep 0 cur s = [cur ++ s].
Proof.
  induction s as [|c r IH]; intros Hno cur.
  - simpl. now rewrite app_nil_r.
  - cbn [contains] in Hno. apply orb_false_iff in Hno as [Hp Hr].
    cbn [split_aux]. rewrite Hp, (IH Hr). now rewrite <- app_assoc.
Qed.

End TextFacts.

Section NotesUFacts.
Import Py Text NotesU.
Local Open Scope list_scope.

Lemma u_insert_desc_perm (x : str) (l : list str) :
  Permutation (x :: l) (insert_desc x l).
Proof.
  induction l as [|y r IH]; simpl; [reflexivity|].
  destruct (List.length x <? List.length y)%nat; [|reflexivity].
  rewrite perm_swap. now constructor.
Qed.

Lemma u_sorted_perm (l : list str) : Permutation l (sorted_len_desc l).
Proof.
  induction l as [|x l IH]; simpl; [constructor|].
  rewrite <- u_insert_desc_perm. now constructor.
Qed.

Lemma u_insert_desc_sorted (x : str) (l : list str) :
  Sorted (fun a b => List.length b <= List.length a) l ->
  Sorted (fun a b => List.length b <= List.length a) (insert_desc x l).
Proof.
  induction 1 as [|y r Hr IH Hhd]; simpl.
  - repeat constructor.
  - destruct (Nat.ltb_spec (List.length x) (List.length y)) as [Hlt|Hge].
    + constructor; [exact IH|].
      destruct r as [|z r]; simpl.
      * repeat constructor. lia.
      * inversion Hhd as [|? ? Hzy]; subst.
        destruct (List.length x <? List.length z)%nat;
          constructor; [exact Hzy | lia].
    + repeat constructor; assumption.
Qed.

Lemma u_sorted_strongly (l : list str) :
  StronglySorted (fun a b => List.length b <= List.length a)
                 (sorted_len_desc l).
Proof.
  apply Sorted_StronglySorted; [intros a b c Hab Hbc; lia|].
  induction l as [|x l IH]; simpl; [constructor|].
  now apply u_insert_desc_sorted.
Qed.

Lemma u_length_set_iter (f : list str -> list str) (l : list str) :
  set_iter_ok f -> List.length (f l) = List.length (nodup eq_dec l).
Proof.
  intros Hok. destruct (Hok l) as [Hnd Hin].
  apply Permutation_length, NoDup_Permutation.
  - exact Hnd.
  - apply NoDup_nodup.
  - intros x. rewrite Hin, nodup_In. reflexivity.
Qed.

(** The text rebound at line 153 has the first 900 words of the
    transcript as its words. *)
Lemma u_notes_transcript_words (transcript : str) :
  split_ws (notes_transcript transcript) = firstn 900 (split_ws transcript).
Proof.
  unfold notes_transcript.
  destruct (Nat.ltb_spec 900 (List.length (split_ws transcript))).
  - rewrite utf8_space. apply text_split_ws_join, Forall_firstn_keeps,
      text_split_ws_words.
  - now rewrite firstn_all2.
Qed.

Lemma u_notes_transcript_short (transcript : str) :
  List.length (split_ws transcript) <= 900 ->
  notes_transcript transcript = transcript.
Proof.
  intros H. unfold notes_transcript.
  destruct (Nat.ltb_spec 900 (List.length (split_ws transcript)));
    [lia | reflexivity].
Qed.

Lemma u_notes_transcript_long (transcript : str) :
  900 < List.length (split_ws transcript) ->
  notes_transcript transcript
  = join (utf8 " ") (firstn 900 (split_ws transcript)).
Proof.
  intros H. unfold notes_transcript.
  destruct (Nat.ltb_spec 900 (List.length (split_ws transcript)));
    [reflexivity | lia].
Qed.

Lemma u_quiz_questions_defined (env : Env) (iw : list str) :
  (2 <= List.length iw -> exists quiz, quiz_questions env iw = Ok quiz)
  /\ (List.length iw < 2 ->
      quiz_questions env iw
      = Raise (mk_exn IndexError "list index out of range")).
Proof.
  split; intros H.
  - destruct iw as [|w0 [|w1 rest]]; simpl in H; try lia.
    unfold quiz_questions, quiz_options. cbn [index nth_error rbind].
    destruct rest as [|w2 [|w3 rest]]; cbn; eauto.
  - destruct iw as [|w0 [|w1 rest]]; simpl in H; try lia; reflexivity.
Qed.

Lemma u_important_words_length (env : Env) (text : str) :
  set_iter_ok (set_iter env) ->
  List.length (important_words env text)
  = Nat.min 10 (List.length (nodup eq_dec (split_ws (lower env text)))).
Proof.
  intros Hok. unfold important_words.
  rewrite length_firstn.
  rewrite <- (Permutation_length (u_sorted_perm _)).
  now rewrite (u_length_set_iter _ _ Hok).
Qed.

End NotesUFacts.

(** C4 (amended).  The important words of the quiz are computed from
    the text rebound at line 153, whose words are the first 900
    words of the transcript: it is lower-cased, split into words,
    made a set, sorted by descending length, and the first ten are
    kept.  For a transcript of at most 900 words this is the
    computation on the whole transcript; for longer transcripts the
    result depends on the first 900 words only. *)
Theorem quiz_words_of_truncated_text (env : NotesU.Env)
  (transcript : Text.str) :
  Text.split_ws (NotesU.notes_transcript transcript)
  = firstn 900 (Text.split_ws transcript)
  /\ NotesU.notes_important_words env transcript
     = firstn 10
         (NotesU.sorted_len_desc
            (NotesU.set_iter env
               (Text.split_ws
                  (NotesU.lower env (NotesU.notes_transcript transcript)))))
  /\ (List.length (Text.split_ws transcript) <= 900 ->
      NotesU.notes_important_words env transcript
      = NotesU.full_transcript_words env transcript)
  /\ (forall other,
         900 < List.length (Text.split_ws transcript) ->
         900 < List.length (Text.split_ws other) ->
         firstn 900 (Text.split_ws other)
         = firstn 900 (Text.split_ws transcript) ->
         NotesU.notes_important_words env other
         = NotesU.notes_important_words env transcript).
Proof.
  split; [apply u_notes_transcript_words|].
  split; [reflexivity|]. split.
  - intros Hshort.
    unfold NotesU.notes_important_words, NotesU.full_transcript_words.
    now rewrite u_notes_transcript_short.
  - intros other Hlong Hlong' Hsame.
    unfold NotesU.notes_important_words.
    rewrite (u_notes_transcript_long _ Hlong),
      (u_notes_transcript_long _ Hlong'), Hsame.
    reflexivity.
Qed.

(** C5 (amended).  The text rebound at line 153 is split on [". "];
    the bullets are, in their original order, those of the first 5
    fragments whose stripped length exceeds 20 characters, each
    stripped and closed with a full stop.  So there are at most 5
    bullets, every bullet comes from a fragment of more than 20
    characters, and the fragments joined by [". "] are the text that
    was split. *)
Theorem key_points_among_first_five (transcript : Text.str) :
  let fragments :=
    Text.split (Text.utf8 ". ") (NotesU.notes_transcript transcript) in
  NotesU.notes_key_points transcript
  = map (fun s => (Text.strip s ++ Text.utf8 ".")%list)
        (filter (fun s => (20 <? List.length (Text.strip s))%nat)
                (firstn 5 fragments))
  /\ Text.join (Text.utf8 ". ") fragments = NotesU.notes_transcript transcript
  /\ List.length (NotesU.notes_key_points transcript) <= 5
  /\ (forall bullet,
        In bullet (NotesU.notes_key_points transcript) ->
        exists fragment,
          In fragment (firstn 5 fragments)
          /\ bullet = (Text.strip fragment ++ Text.utf8 ".")%list
          /\ 20 < List.length (Text.strip fragment)
          /\ List.length bullet = S (List.length (Text.strip fragment))).
Proof.
  intros fragments.
  split; [reflexivity|].
  split; [apply text_join_split; discriminate|].
  split.
  - unfold NotesU.notes_key_points, NotesU.key_points. fold fragments.
    rewrite length_map.
    etransitivity; [apply filter_length_le|].
    apply firstn_le_length.
  - intros bullet Hb.
    unfold NotesU.notes_key_points, NotesU.key_points in Hb.
    fold fragments in Hb.
    apply in_map_iff in Hb as (fragment & <- & Hf).
    apply filter_In in Hf as [Hin Hlong].
    apply Nat.ltb_lt in Hlong.
    exists fragment. repeat split; try assumption.
    rewrite length_app. change (List.length (Text.utf8 ".")) with 1. lia.
Qed.

(** The bullets of the specification's example, and of a message of
    19 characters that takes 21 bytes in UTF-8. *)
Example key_points_count_characters :
  NotesU.notes_key_points
    (Text.utf8 "A. B is longer than twenty chars here. C.")
  = [Text.utf8 "B is longer than twenty chars here."]
  /\ NotesU.notes_key_points (Text.utf8 "❌ Error: disk full!") = [].
Proof. split; reflexivity. Qed.

Lemma demo_set_iter_ok : NotesU.set_iter_ok (NotesU.set_iter NotesU.demo_env).
Proof.
  intros l. simpl. split.
  - apply NoDup_rev, NoDup_nodup.
  - intros x. rewrite <- in_rev, nodup_In, <- in_rev. reflexivity.
Qed.

(** X9.  When [load_summarizer()] raises, [generate_ai_notes] raises
    the same exception.  Once the summarizer is loaded, notes are
    returned exactly when the lower-cased text of the first 900
    words holds at least two different words, whatever the
    summarizer answers; with fewer the call raises [IndexError]. *)
Theorem notes_iff_two_distinct_words (env : NotesU.Env)
  (transcript : Text.str) :
  NotesU.set_iter_ok (NotesU.set_iter env) ->
  let distinct :=
    nodup Text.eq_dec
      (Text.split_ws
         (NotesU.lower env (NotesU.notes_transcript transcript))) in
  (forall e,
      NotesU.load_summarizer env = Py.Raise e ->
      NotesU.generate_ai_notes env transcript = Py.Raise e)
  /\ (forall summarizer,
         NotesU.load_summarizer env = Py.Ok summarizer ->
         (2 <= List.length distinct ->
          exists notes, NotesU.generate_ai_notes env transcript = Py.Ok notes)
         /\ (List.length distinct < 2 ->
             NotesU.generate_ai_notes env transcript
             = Py.Raise (Py.mk_exn Py.IndexError "list index out of range"))).
Proof.
  intros Hok distinct. split.
  - intros e Hload. unfold NotesU.generate_ai_notes. now rewrite Hload.
  - intros summarizer Hload.
    pose proof (u_important_words_length env
                  (NotesU.notes_transcript transcript) Hok) as Hlen.
    fold distinct in Hlen.
    unfold NotesU.generate_ai_notes. rewrite Hload. cbn [NotesU.rbind].
    destruct (u_quiz_questions_defined env
                (NotesU.important_words env
                   (NotesU.notes_transcript transcript))) as [Hdef Hundef].
    split; intros Hd.
    + destruct Hdef as [quiz Hquiz]; [lia|]. rewrite Hquiz. simpl. eauto.
    + rewrite Hundef by lia. reflexivity.
Qed.

Lemma notes_iff_two_distinct_words_witness :
  NotesU.set_iter_ok (NotesU.set_iter NotesU.demo_env)
  /\ (exists notes,
         NotesU.generate_ai_notes NotesU.demo_env
           (Text.utf8 "Hello hello World") = Py.Ok notes)
  /\ NotesU.generate_ai_notes NotesU.demo_env (Text.utf8 "Hello hello HELLO")
     = Py.Raise (Py.mk_exn Py.IndexError "list index out of range").
Proof.
  split; [exact demo_set_iter_ok|].
  destruct (proj2 (notes_iff_two_distinct_words NotesU.demo_env
                     (Text.utf8 "Hello hello World") demo_set_iter_ok)
              _ eq_refl) as [Hyes _].
  destruct (proj2 (notes_iff_two_distinct_words NotesU.demo_env
                     (Text.utf8 "Hello hello HELLO") demo_set_iter_ok)
              _ eq_refl) as [_ Hno].
  split.
  - apply Hyes. vm_compute. lia.
  - apply Hno. vm_compute. lia.
Defined.

(** X10.  The important words of the quiz: at most ten, no word
    twice, in order of non-increasing length (in characters), each
    a word without blanks, and none shorter than a word of the
    lower-cased text that was left out. *)
Theorem important_words_shape (env : NotesU.Env) (transcript : Text.str) :
  NotesU.set_iter_ok (NotesU.set_iter env) ->
  let important := NotesU.notes_important_words env transcript in
  let words :=
    Text.split_ws (NotesU.lower env (NotesU.notes_transcript transcript)) in
  List.length important <= 10
  /\ NoDup important
  /\ Sorted (fun a b => List.length b <= List.length a) important
  /\ (forall x, In x important -> In x words /\ Text.is_word x)
  /\ (forall x y,
         In x important -> In y words -> ~ In y important ->
         List.length y <= List.length x).
Proof.
  intros Hok important words.
  set (sorted := NotesU.sorted_len_desc (NotesU.set_iter env words)).
  assert (Himp : important = firstn 10 sorted) by reflexivity.
  assert (Hperm : Permutation (NotesU.set_iter env words) sorted)
    by apply u_sorted_perm.
  destruct (Hok words) as [Hnd Hin].
  assert (Hstrong : StronglySorted
                      (fun a b => List.length b <= List.length a)
                      (firstn 10 sorted ++ skipn 10 sorted)%list).
  { rewrite firstn_skipn. apply u_sorted_strongly. }
  destruct (StronglySorted_app_cross _ _ _ Hstrong) as [Hs1 Hcross].
  rewrite Himp.
  split; [apply firstn_le_length|].
  split; [apply NoDup_firstn_keeps, (Permutation_NoDup Hperm Hnd)|].
  split; [now apply StronglySorted_Sorted|].
  split.
  - intros x Hx. apply in_firstn_in in Hx.
    apply (Permutation_in x (Permutation_sym Hperm)) in Hx.
    apply Hin in Hx. split; [exact Hx|].
    pose proof (text_split_ws_words
                  (NotesU.lower env (NotesU.notes_transcript transcript)))
      as Hall.
    rewrite Forall_forall in Hall. now apply Hall.
  - intros x y Hx Hy Hny.
    apply Hcross; [exact Hx|].
    apply Hin in Hy. apply (Permutation_in y Hperm) in Hy.
    rewrite <- (firstn_skipn 10 sorted) in Hy.
    apply in_app_or in Hy as [Hy|Hy]; [contradiction | exact Hy].
Qed.

Lemma important_words_shape_witness :
  NotesU.set_iter_ok (NotesU.set_iter NotesU.demo_env)
  /\ NotesU.notes_important_words NotesU.demo_env
       (Text.utf8 "abcdef ééééé xyz")
     = [Text.utf8 "abcdef"; Text.utf8 "ééééé"; Text.utf8 "xyz"]
  /\ NoDup (NotesU.notes_important_words NotesU.demo_env
              (Text.utf8 "abcdef ééééé xyz")).
Proof.
  split; [exact demo_set_iter_ok|]. split; [reflexivity|].
  exact (proj1 (proj2 (important_words_shape NotesU.demo_env
                         (Text.utf8 "abcdef ééééé xyz") demo_set_iter_ok))).
Defined.

(** X11.  The text everything after line 153 works on has the first
    900 words of the transcript as its words: a transcript of at
    most 900 words is kept as it is, cutting twice is cutting once;
    the loaded summarizer is asked about this text only, and when it
    fails the notes are those it would give had it answered the
    fixed sentence of line 160. *)
Theorem summarizer_text_is_first_900_words (env : NotesU.Env)
  (transcript : Text.str) :
  Text.split_ws (NotesU.notes_transcript transcript)
  = firstn 900 (Text.split_ws transcript)
  /\ (List.length (Text.split_ws transcript) <= 900 ->
      NotesU.notes_transcript transcript = transcript)
  /\ NotesU.notes_transcript (NotesU.notes_transcript transcript)
     = NotesU.notes_transcript transcript
  /\ (forall summarizer summarizer',
         NotesU.load_summarizer env = Py.Ok summarizer ->
         summarizer' (NotesU.notes_transcript transcript)
         = summarizer (NotesU.notes_transcript transcript) ->
         NotesU.generate_ai_notes
           {| NotesU.set_iter := NotesU.set_iter env;
              NotesU.load_summarizer := Py.Ok summarizer';
              NotesU.lower := NotesU.lower env;
              NotesU.capitalize := NotesU.capitalize env |} transcript
         = NotesU.generate_ai_notes env transcript)
  /\ (forall summarizer e,
         NotesU.load_summarizer env = Py.Ok summarizer ->
         summarizer (NotesU.notes_transcript transcript) = Py.Raise e ->
         NotesU.generate_ai_notes env transcript
         = NotesU.generate_ai_notes
             {| NotesU.set_iter := NotesU.set_iter env;
                NotesU.load_summarizer :=
                  Py.Ok (fun _ =>
                           Py.Ok (Text.utf8 "Summary could not be generated."));
                NotesU.lower := NotesU.lower env;
                NotesU.capitalize := NotesU.capitalize env |} transcript).
Proof.
  split; [apply u_notes_transcript_words|].
  split; [apply u_notes_transcript_short|]. split.
  - apply u_notes_transcript_short.
    rewrite u_notes_transcript_words. apply firstn_le_length.
  - split.
    + intros summarizer summarizer' Hload Hsame.
      unfold NotesU.generate_ai_notes. rewrite Hload.
      cbn [NotesU.load_summarizer NotesU.rbind].
      unfold NotesU.summary_text. rewrite Hsame. reflexivity.
    + intros summarizer e Hload Hfail.
      unfold NotesU.generate_ai_notes. rewrite Hload.
      cbn [NotesU.load_summarizer NotesU.rbind].
      unfold NotesU.summary_text. rewrite Hfail. reflexivity.
Qed.

(** X23.  The two words the first question offers are the longest of
    the lower-cased text, counted in characters: option a), which
    the template gives as the answer, is the capitalized form of a
    word no word is longer than, and option b) of a different word
    no other word is longer than. *)
Theorem quiz_offers_longest (env : NotesU.Env) (transcript : Text.str)
  (o0 o1 o2 o3 : Text.str) :
  NotesU.set_iter_ok (NotesU.set_iter env) ->
  NotesU.quiz_options env (NotesU.notes_important_words env transcript)
  = Py.Ok (o0, o1, o2, o3) ->
  let words :=
    Text.split_ws (NotesU.lower env (NotesU.notes_transcript transcript)) in
  exists w0 w1,
    o0 = NotesU.capitalize env w0 /\ o1 = NotesU.capitalize env w1
    /\ w0 <> w1 /\ In w0 words /\ In w1 words
    /\ (forall y, In y words -> List.length y <= List.length w0)
    /\ (forall y, In y words -> y <> w0 -> List.length y <= List.length w1).
Proof.
  intros Hok Hquiz words.
  set (sorted := NotesU.sorted_len_desc (NotesU.set_iter env words)).
  change (NotesU.notes_important_words env transcript)
    with (firstn 10 sorted) in Hquiz.
  destruct (firstn 10 sorted) as [|w0 [|w1 r]] eqn:Hfirst;
    try discriminate.
  destruct (firstn_two_heads _ _ _ _ _ Hfirst) as [r' Hsorted].
  assert (Ho : o0 = NotesU.capitalize env w0 /\ o1 = NotesU.capitalize env w1).
  { unfold NotesU.quiz_options in Hquiz.
    cbn [NotesU.index nth_error NotesU.rbind] in Hquiz.
    destruct r as [|w2 [|w3 r2]]; cbn in Hquiz;
      injection Hquiz as <- <- _ _; auto. }
  destruct Ho as [-> ->].
  assert (Hperm : Permutation (NotesU.set_iter env words) sorted)
    by apply u_sorted_perm.
  destruct (Hok words) as [Hnd Hin].
  assert (Hnd' : NoDup sorted) by exact (Permutation_NoDup Hperm Hnd).
  pose proof (u_sorted_strongly (NotesU.set_iter env words)) as Hstrong.
  fold sorted in Hstrong. rewrite Hsorted in Hstrong, Hnd'.
  inversion Hstrong as [|? ? Htail Hall0]; subst.
  inversion Htail as [|? ? _ Hall1]; subst.
  rewrite Forall_forall in Hall0, Hall1.
  assert (Hmem : forall y, In y words <-> In y (w0 :: w1 :: r')).
  { intros y. rewrite <- Hsorted. rewrite <- Hin. split; intros Hy.
    - exact (Permutation_in y Hperm Hy).
    - exact (Permutation_in y (Permutation_sym Hperm) Hy). }
  exists w0, w1.
  split; [reflexivity|]. split; [reflexivity|]. split.
  { inversion Hnd' as [|? ? Hnot _]; subst. intros ->. apply Hnot. now left. }
  split; [apply Hmem; now left|].
  split; [apply Hmem; right; now left|].
  split.
  - intros y Hy. apply Hmem in Hy as [<-|Hy]; [lia | now apply Hall0].
  - intros y Hy Hne. apply Hmem in Hy as [<-|[<-|Hy]];
      [congruence | lia | now apply Hall1].
Qed.

Lemma quiz_offers_longest_witness :
  NotesU.set_iter_ok (NotesU.set_iter NotesU.demo_env)
  /\ NotesU.quiz_options NotesU.demo_env
       (NotesU.notes_important_words NotesU.demo_env
          (Text.utf8 "Sorting algorithms use keys"))
     = Py.Ok (Text.utf8 "Algorithms", Text.utf8 "Sorting",
              Text.utf8 "Keys", Text.utf8 "Use")
  /\ exists w0 w1,
       Text.utf8 "Algorithms" = NotesU.capitalize NotesU.demo_env w0
       /\ Text.utf8 "Sorting" = NotesU.capitalize NotesU.demo_env w1.
Proof.
  split; [exact demo_set_iter_ok|].
  assert (H : NotesU.quiz_options NotesU.demo_env
                (NotesU.notes_important_words NotesU.demo_env
                   (Text.utf8 "Sorting algorithms use keys"))
              = Py.Ok (Text.utf8 "Algorithms", Text.utf8 "Sorting",
                       Text.utf8 "Keys", Text.utf8 "Use"))
    by reflexivity.
  split; [exact H|].
  destruct (quiz_offers_longest NotesU.demo_env _ _ _ _ _
              demo_set_iter_ok H) as (w0 & w1 & H0 & H1 & _).
  now exists w0, w1.
Defined.

(** X24.  A transcript of at most 900 words without [". "] in it is
    one fragment: it gives one bullet, its stripped text followed by
    a full stop, when that text is longer than 20 characters, and no
    bullet otherwise; the full stop is added whether or not the
    sentence already ends with one. *)
Theorem single_fragment_bullet (transcript : Text.str) :
  List.length (Text.split_ws transcript) <= 900 ->
  Text.contains (Text.utf8 ". ") transcript = false ->
  NotesU.notes_key_points transcript
  = if (20 <? List.length (Text.strip transcript))%nat
    then [(Text.strip transcript ++ Text.utf8 ".")%list]
    else [].
Proof.
  intros Hshort Hno.
  unfold NotesU.notes_key_points, NotesU.key_points.
  rewrite (u_notes_transcript_short _ Hshort).
  unfold Text.split. rewrite (text_split_without_separator _ _ Hno).
  cbn [app firstn filter].
  destruct (20 <? List.length (Text.strip transcript))%nat; reflexivity.
Qed.

Lemma single_fragment_bullet_witness :
  Text.contains (Text.utf8 ". ")
    (Text.utf8 "This lecture covers sorting algorithms.") = false
  /\ NotesU.notes_key_points
       (Text.utf8 "This lecture covers sorting algorithms.")
     = [Text.utf8 "This lecture covers sorting algorithms.."]
  /\ NotesU.notes_key_points (Text.utf8 "❌ Error: disk full!") = [].
Proof.
  split; [reflexivity|]. split.
  - exact (single_fragment_bullet
             (Text.utf8 "This lecture covers sorting algorithms.")
             ltac:(vm_compute; lia) eq_refl).
  - exact (single_fragment_bullet (Text.utf8 "❌ Error: disk full!")
             ltac:(vm_compute; lia) eq_refl).
Defined.

(** X22.  When the clip of a video upload cannot be opened, the call
    returns the extraction message with the text of the exception
    and, where the system lets the upload be unlinked, leaves the
    files as they were apart from the removed upload: nothing was
    written at the WAV path. *)
Theorem unopenable_video_is_clean (P : Transcribe.Pydub)
  (w : Transcribe.World P) (name stem : string) (e : Py.exn) (s : Py.fs) :
  let file_ext := App.file_ext_of name in
  let temp_path := stem ++ "." ++ file_ext in
  PyStr.mem (PyStr.lower file_ext) Transcribe.video_exts = true ->
  Transcribe.w_tempfile w = Py.Ok stem ->
  Transcribe.w_write_upload w = Py.Ok tt ->
  Transcribe.w_open_video w temp_path = Py.Raise e ->
  Transcribe.w_unlink w temp_path = Py.Ok tt ->
  Transcribe.transcribe_audio w {| Transcribe.up_name := Some name |} s
  = ("❌ Cannot extract audio from " ++ PyStr.upper file_ext ++ ": "
     ++ Py.exn_str e,
     Py.remove_file temp_path (Py.create_file temp_path s)).
Proof.
  intros file_ext temp_path Hext Htmp Hwrite Hopen Hunlink.
  rewrite (transcribe_audio_saved w name stem s Htmp Hwrite). cbn zeta.
  fold file_ext. fold temp_path.
  unfold Transcribe.transcribe_body, Py.bind. rewrite Hext.
  unfold Transcribe.extract_from_video, Py.try_except, Py.bind, Py.lift.
  rewrite Hopen. unfold Py.ret. cbv beta iota.
  rewrite (unlink_quietly_succeeds w temp_path _
             (file_exists_create_same temp_path s) Hunlink).
  reflexivity.
Qed.

Lemma unopenable_video_is_clean_witness :
  PyStr.mem (PyStr.lower (App.file_ext_of "talk.webm")) Transcribe.video_exts
  = true
  /\ Transcribe.transcribe_audio Demo2.world_unopenable_video
       {| Transcribe.up_name := Some "talk.webm" |} ["/tmp/keep.txt"]
     = ("❌ Cannot extract audio from WEBM: MoviePy error: failed to read the file",
        ["/tmp/keep.txt"]).
Proof.
  split; [reflexivity|].
  exact (unopenable_video_is_clean Demo.pydub
           Demo2.world_unopenable_video "talk.webm" "/tmp/tmpab12cd"
           (Py.mk_exn Py.OSError "MoviePy error: failed to read the file")
           ["/tmp/keep.txt"] eq_refl eq_refl eq_refl eq_refl eq_refl).
Defined.

(** The transcripts of the two counterexamples, read as code points:
    the word after the 900th does not reach the quiz, and the long
    sixth fragment gives no bullet. *)
Example tail_word_ignored_in_text :
  NotesU.notes_important_words NotesU.demo_env (Text.utf8 Demo.long_transcript)
  = [Text.utf8 "a"]
  /\ NotesU.full_transcript_words NotesU.demo_env
       (Text.utf8 Demo.long_transcript)
     = [Text.utf8 "extraordinary"; Text.utf8 "a"].
Proof. split; vm_compute; reflexivity. Qed.

Example late_fragment_dropped_in_text :
  NotesU.notes_key_points (Text.utf8 Demo.late_sentence) = []
  /\ NotesU.first_five_long (Text.utf8 Demo.late_sentence)
     = [Text.utf8 "This sentence is longer than twenty characters."].
Proof. split; vm_compute; reflexivity. Qed.

(** Blanks outside ASCII separate words, and case is changed by the
    tables of the environment only. *)
Example no_break_space_separates_words :
  Text.split_ws [66; 111; 110; 160; 33; 12288; 111; 107]%N
  = [[66; 111; 110]; [33]; [111; 107]]%N.
Proof. reflexivity. Qed.

(** The quiz words of a 901-word transcript are not those of the
    whole transcript: the long last word is missing. *)
Lemma tail_word_never_reaches_quiz :
  NotesU.notes_important_words NotesU.demo_env (Text.utf8 Demo.long_transcript)
  <> NotesU.full_transcript_words NotesU.demo_env
       (Text.utf8 Demo.long_transcript).
Proof. vm_compute. discriminate. Qed.

(** Five short fragments come first: no bullet is produced, although
    a later fragment is longer than 20 characters. *)
Lemma late_fragment_gives_no_bullet :
  NotesU.notes_key_points (Text.utf8 Demo.late_sentence)
  <> NotesU.first_five_long (Text.utf8 Demo.late_sentence).
Proof. vm_compute. discriminate. Qed.
